(** * StepTracking: the blocking policy engine and the gym-session detector

    A shallow embedding of [BlockingService] (the goal and blocking policy
    engine) and of the geolocation callback of the [LocationTracker]
    component, with the properties the specification states about them.

    Conventions.
    - JavaScript strings are modelled as [string] (sequences of 8-bit
      characters); [toLowerCase] is the ASCII case mapping, which is what
      the engine sees on host names (the URL parser yields ASCII hosts).
      A statement that depends on the case mapping of other text (the
      patterns of the block-list) assumes that the text is ASCII, where
      this mapping is the one of [String.prototype.toLowerCase].
    - Numbers that are integers by construction (step counts and minutes
      read with [parseInt], [Math.floor] results, [Date] timestamps in
      milliseconds) are [Z].  Coordinates, radii and GPS accuracy are
      binary64 values, modelled as primitive [float]s.
    - A call that may throw returns a [completion]. *)

From Stdlib Require Import ZArith List String Ascii Bool Lia Floats.
From stdpp Require Import gmap strings.

Import ListNotations.
#[local] Open Scope string_scope.
#[local] Open Scope Z_scope.

(** ** Host primitives *)

Module JS.

(** Result of evaluating a call: a value, or a thrown exception. *)
Inductive exn : Type := TypeError | SyntaxError.

Inductive completion (A : Type) : Type :=
| Return (a : A)
| Throw (e : exn).
Arguments Return {A} a.
Arguments Throw {A} e.

(** [try { body } catch (error) { handler }] *)
Definition try_catch {A : Type} (body : completion A) (handler : exn -> completion A)
  : completion A :=
  match body with
  | Return a => Return a
  | Throw e => handler e
  end.

Definition bind {A B : Type} (c : completion A) (k : A -> completion B) : completion B :=
  match c with
  | Return a => k a
  | Throw e => Throw e
  end.

(** [String.prototype.toLowerCase] on ASCII text: the capitals [A] to [Z]
    become small letters and every other character stays. *)
Definition toLowerCaseChar (c : ascii) : ascii :=
  let n := nat_of_ascii c in
  if ((65 <=? n)%nat && (n <=? 90)%nat)%bool then ascii_of_nat (n + 32) else c.

Fixpoint toLowerCase (s : string) : string :=
  match s with
  | EmptyString => EmptyString
  | String c r => String (toLowerCaseChar c) (toLowerCase r)
  end.

(** [dropPrefix p s] is the rest of [s] after a leading [p], if [s] starts
    with [p]. *)
Fixpoint dropPrefix (p s : string) : option string :=
  match p with
  | EmptyString => Some s
  | String a p' =>
      match s with
      | EmptyString => None
      | String b s' => if Ascii.eqb a b then dropPrefix p' s' else None
      end
  end.

Definition startsWith (s p : string) : bool :=
  match dropPrefix p s with Some _ => true | None => false end.

(** [s.replace(/^lit/, "")] for a literal [lit]: an anchored pattern
    matches at most once, at position 0. *)
Definition replacePrefix (lit s : string) : string :=
  match dropPrefix lit s with
  | Some r => r
  | None => s
  end.

(** [s.replace(/^https?:\/\//, "")] *)
Definition replaceScheme (s : string) : string :=
  match dropPrefix "https://" s with
  | Some r => r
  | None => replacePrefix "http://" s
  end.

(** [s.includes(sub)] *)
Fixpoint includes (s sub : string) : bool :=
  if startsWith s sub then true
  else match s with
       | EmptyString => false
       | String _ r => includes r sub
       end.

(** [xs.some(f)] *)
Definition some {A : Type} (f : A -> bool) (xs : list A) : bool := existsb f xs.

(** [x || d] on an integer-valued number: [0] is falsy. *)
Definition orZ (x d : Z) : Z := if x =? 0 then d else x.

(** [o || d] where [o] may be [undefined]. *)
Definition orUndefZ (o : option Z) (d : Z) : Z :=
  match o with Some x => orZ x d | None => d end.

(** [s || d] on strings: the empty string is falsy. *)
Definition orUndefStr (o : option string) (d : string) : string :=
  match o with
  | Some EmptyString | None => d
  | Some s => s
  end.

(** Truthiness of a double: [0], [-0] and [NaN] are falsy. *)
Definition truthy (x : float) : bool :=
  negb (PrimFloat.is_zero x || PrimFloat.is_nan x).

Definition orUndefNum (o : option float) (d : float) : float :=
  match o with
  | Some x => if truthy x then x else d
  | None => d
  end.

(** [Math.max(x, y)]: [NaN] if either argument is [NaN]; [+0] is larger
    than [-0]. *)
Definition Math_max (x y : float) : float :=
  if (PrimFloat.is_nan x || PrimFloat.is_nan y)%bool then PrimFloat.nan
  else if (x <? y)%float then y
  else if (y <? x)%float then x
  else if PrimFloat.get_sign x then y else x.

(** [Math.floor(a / b)] for integers [a] and a positive integer [b]. *)
Definition floorDiv (a b : Z) : Z := a / b.

(** Containment as a relation: [sub] occurs in [s]. *)
Definition Substring (sub s : string) : Prop :=
  exists pre post, s = pre ++ sub ++ post.

End JS.

(** ** The goal and blocking policy engine ([BlockingService]) *)

Module BlockingService.
Import JS.

Inductive TrackingMode : Type := steps | location | both.

Record LocationGoal : Type := mkLocationGoal {
  gymName : string;
  latitude : float;
  longitude : float;
  radiusMeters : float;
  requiredMinutes : Z
}.

Record BlockingSettings : Type := mkBlockingSettings {
  enabled : bool;
  strictMode : bool;
  strictModeActivatedAt : option Z;
  trackingMode : TrackingMode;
  dailyGoal : Z;
  locationGoal : LocationGoal;
  blockedApps : list string;
  blockedWebsites : list string;
  allowedDomains : list string;
  blockingMessage : string
}.

(** [Partial<BlockingSettings>]: [None] is an absent key.  The optional
    field [strictModeActivatedAt] can also be present with the value
    [undefined] ([Some None]). *)
Record PartialSettings : Type := mkPartial {
  p_enabled : option bool;
  p_strictMode : option bool;
  p_strictModeActivatedAt : option (option Z);
  p_trackingMode : option TrackingMode;
  p_dailyGoal : option Z;
  p_locationGoal : option LocationGoal;
  p_blockedApps : option (list string);
  p_blockedWebsites : option (list string);
  p_allowedDomains : option (list string);
  p_blockingMessage : option string
}.

Definition emptyPartial : PartialSettings :=
  mkPartial None None None None None None None None None None.

(** What [JSON.parse] of the persisted slot can hold.  The nested
    [locationGoal] may be missing, and so may each of its properties. *)
Record SavedGoal : Type := mkSavedGoal {
  s_gymName : option string;
  s_latitude : option float;
  s_longitude : option float;
  s_radiusMeters : option float;
  s_requiredMinutes : option Z
}.

Record SavedSettings : Type := mkSaved {
  s_enabled : bool;
  s_strictMode : bool;
  s_strictModeActivatedAt : option Z;
  s_trackingMode : TrackingMode;
  s_dailyGoal : Z;
  s_locationGoal : option SavedGoal;
  s_blockedApps : list string;
  s_blockedWebsites : list string;
  s_allowedDomains : list string;
  s_blockingMessage : string
}.

(** [localStorage.getItem("stepTracker_blockingSettings")] followed by
    [JSON.parse]: no item (null or the empty string), an item on which
    parsing or the first property access throws, or a settings object. *)
Inductive SavedItem : Type :=
| NoItem
| Corrupt (e : exn)
| Saved (o : SavedSettings).

Definition defaultLocationGoal : LocationGoal :=
  mkLocationGoal "My Gym" 0%float 0%float 150%float 60.

Definition defaultSettings : BlockingSettings :=
  {| enabled := false;
     strictMode := false;
     strictModeActivatedAt := None;
     trackingMode := steps;
     dailyGoal := 10000;
     locationGoal := defaultLocationGoal;
     blockedApps := ["Social Media"; "Games"; "Video Streaming"];
     blockedWebsites :=
       ["facebook.com"; "twitter.com"; "instagram.com"; "youtube.com"; "tiktok.com"];
     allowedDomains := ["localhost"; "127.0.0.1"];
     blockingMessage := "This site is blocked until you reach your daily goal!" |}.

(** The [locationGoal] that [loadSettings] installs in the parsed object. *)
Definition loadLocationGoal (g : option SavedGoal) : LocationGoal :=
  match g with
  | None => defaultLocationGoal
  | Some g =>
      {| gymName := orUndefStr (s_gymName g) "My Gym";
         latitude := orUndefNum (s_latitude g) 0%float;
         longitude := orUndefNum (s_longitude g) 0%float;
         radiusMeters := orUndefNum (s_radiusMeters g) 150%float;
         requiredMinutes := orUndefZ (s_requiredMinutes g) 60 |}
  end.

Definition loadSettings (saved : SavedItem) : BlockingSettings :=
  match saved with
  | Saved parsed =>
      {| enabled := s_enabled parsed;
         strictMode := false;
         strictModeActivatedAt := None;
         trackingMode := s_trackingMode parsed;
         dailyGoal := s_dailyGoal parsed;
         locationGoal := loadLocationGoal (s_locationGoal parsed);
         blockedApps := s_blockedApps parsed;
         blockedWebsites := s_blockedWebsites parsed;
         allowedDomains := s_allowedDomains parsed;
         blockingMessage := s_blockingMessage parsed |}
  | Corrupt _ => defaultSettings
  | NoItem => defaultSettings
  end.

(** Engine state: the private fields of the class. *)
Record Engine : Type := mkEngine {
  settings : BlockingSettings;
  currentSteps : Z;
  currentGymTime : Z;
  isStepGoalAchieved : bool;
  isGymGoalAchieved : bool
}.

(** What [saveSettings] writes: [JSON.stringify(this.settings)]. *)
Definition saveSettings (st : Engine) : SavedItem :=
  let s := settings st in
  let g := locationGoal s in
  Saved {| s_enabled := enabled s;
           s_strictMode := strictMode s;
           s_strictModeActivatedAt := strictModeActivatedAt s;
           s_trackingMode := trackingMode s;
           s_dailyGoal := dailyGoal s;
           s_locationGoal :=
             Some (mkSavedGoal (Some (gymName g)) (Some (latitude g)) (Some (longitude g))
                               (Some (radiusMeters g)) (Some (requiredMinutes g)));
           s_blockedApps := blockedApps s;
           s_blockedWebsites := blockedWebsites s;
           s_allowedDomains := allowedDomains s;
           s_blockingMessage := blockingMessage s |}.

(** The in-place rewrites [updateSettings] applies to its argument before
    merging it. *)
Definition forceStrictModeOff (p : PartialSettings) : PartialSettings :=
  match p_strictMode p with
  | Some true =>
      mkPartial (p_enabled p) (Some false) (p_strictModeActivatedAt p) (p_trackingMode p)
                (p_dailyGoal p) (p_locationGoal p) (p_blockedApps p) (p_blockedWebsites p)
                (p_allowedDomains p) (p_blockingMessage p)
  | _ => p
  end.

Definition clearActivation (p : PartialSettings) : PartialSettings :=
  match p_strictMode p with
  | Some false =>
      mkPartial (p_enabled p) (p_strictMode p) (Some None) (p_trackingMode p)
                (p_dailyGoal p) (p_locationGoal p) (p_blockedApps p) (p_blockedWebsites p)
                (p_allowedDomains p) (p_blockingMessage p)
  | _ => p
  end.

Definition fixRadius (p : PartialSettings) : PartialSettings :=
  match p_locationGoal p with
  | Some g =>
      mkPartial (p_enabled p) (p_strictMode p) (p_strictModeActivatedAt p) (p_trackingMode p)
                (p_dailyGoal p)
                (Some (mkLocationGoal (gymName g) (latitude g) (longitude g) 150%float
                                      (requiredMinutes g)))
                (p_blockedApps p) (p_blockedWebsites p)
                (p_allowedDomains p) (p_blockingMessage p)
  | None => p
  end.

Definition pick {A : Type} (new : option A) (old : A) : A :=
  match new with Some v => v | None => old end.

(** [{ ...s, ...p }] *)
Definition spread (s : BlockingSettings) (p : PartialSettings) : BlockingSettings :=
  {| enabled := pick (p_enabled p) (enabled s);
     strictMode := pick (p_strictMode p) (strictMode s);
     strictModeActivatedAt := pick (p_strictModeActivatedAt p) (strictModeActivatedAt s);
     trackingMode := pick (p_trackingMode p) (trackingMode s);
     dailyGoal := pick (p_dailyGoal p) (dailyGoal s);
     locationGoal := pick (p_locationGoal p) (locationGoal s);
     blockedApps := pick (p_blockedApps p) (blockedApps s);
     blockedWebsites := pick (p_blockedWebsites p) (blockedWebsites s);
     allowedDomains := pick (p_allowedDomains p) (allowedDomains s);
     blockingMessage := pick (p_blockingMessage p) (blockingMessage s) |}.

Definition updateSettings (newSettings : PartialSettings) (st : Engine) : Engine :=
  let newSettings := forceStrictModeOff newSettings in
  let newSettings := clearActivation newSettings in
  let newSettings := fixRadius newSettings in
  mkEngine (spread (settings st) newSettings)
           (currentSteps st) (currentGymTime st)
           (isStepGoalAchieved st) (isGymGoalAchieved st).

Definition getSettings (st : Engine) : BlockingSettings :=
  spread (settings st) emptyPartial.

Definition updateGoalStatus (st : Engine) : Engine :=
  mkEngine (settings st) (currentSteps st) (currentGymTime st)
           (currentSteps st >=? dailyGoal (settings st))
           (currentGymTime st >=? orZ (requiredMinutes (locationGoal (settings st))) 60).

Definition updateStepCount (steps : Z) (st : Engine) : Engine :=
  updateGoalStatus
    (mkEngine (settings st) steps (currentGymTime st)
              (isStepGoalAchieved st) (isGymGoalAchieved st)).

Definition updateGymTime (minutes : Z) (st : Engine) : Engine :=
  updateGoalStatus
    (mkEngine (settings st) (currentSteps st) minutes
              (isStepGoalAchieved st) (isGymGoalAchieved st)).

(** The goal test both [shouldBlockWebsite] and [getBlockingStatus] make. *)
Definition goalsAchieved (st : Engine) : bool :=
  match trackingMode (settings st) with
  | steps => isStepGoalAchieved st
  | location => isGymGoalAchieved st
  | both => isStepGoalAchieved st && isGymGoalAchieved st
  end.

Definition normalizePattern (pattern : string) : string :=
  replacePrefix "www." (replaceScheme (toLowerCase pattern)).

Definition normalizeHostname (hostname : string) : string :=
  replacePrefix "www." hostname.

Definition matchesPattern (hostname pattern : string) : bool :=
  let normalizedPattern := normalizePattern pattern in
  let normalizedHostname := normalizeHostname hostname in
  includes normalizedHostname normalizedPattern
  || includes normalizedPattern normalizedHostname.

Section WithURL.

(** [new URL(url).hostname]: the host of the parsed URL, or the
    [TypeError] the constructor throws on input it cannot parse. *)
Variable new_URL : string -> completion string.

Definition shouldBlockWebsite (st : Engine) (url : string) : completion bool :=
  if negb (enabled (settings st)) then Return false
  else if goalsAchieved st then Return false
  else
    try_catch
      (bind (new_URL url) (fun urlObj_hostname =>
         let hostname := toLowerCase urlObj_hostname in
         if some (fun domain => includes hostname domain) (allowedDomains (settings st))
         then Return false
         else Return (some (matchesPattern hostname) (blockedWebsites (settings st)))))
      (fun error => Return false).

End WithURL.

Record BlockingStatus : Type := mkStatus {
  isBlocked : bool;
  reason : string;
  status_trackingMode : TrackingMode;
  status_currentSteps : Z;
  goalSteps : Z;
  remainingSteps : Z;
  currentGymTime_ : Z;
  goalGymTime : Z;
  remainingGymTime : Z;
  stepGoalAchieved : bool;
  gymGoalAchieved : bool;
  strictModeTimeRemaining : option Z
}.

Definition statusReason (st : Engine) : string :=
  match trackingMode (settings st) with
  | steps => if isStepGoalAchieved st then "Step goal achieved" else "Step goal not reached"
  | location =>
      if isGymGoalAchieved st then "Gym goal achieved" else "Gym time goal not reached"
  | both =>
      if isStepGoalAchieved st && isGymGoalAchieved st then "Both goals achieved"
      else if negb (isStepGoalAchieved st) && negb (isGymGoalAchieved st)
           then "Both step and gym goals not reached"
      else if negb (isStepGoalAchieved st) then "Step goal not reached"
      else "Gym goal not reached"
  end.

Definition strictModeLockDuration : Z := 21 * 24 * 60 * 60 * 1000.

(** [now] is the reading of [Date.now()].  A recorded activation time of
    [0] is falsy, like an absent one. *)
Definition getBlockingStatus (now : Z) (st : Engine) : BlockingStatus :=
  let s := settings st in
  {| isBlocked := enabled s && negb (goalsAchieved st);
     reason := statusReason st;
     status_trackingMode := trackingMode s;
     status_currentSteps := currentSteps st;
     goalSteps := dailyGoal s;
     remainingSteps := Z.max 0 (dailyGoal s - currentSteps st);
     currentGymTime_ := currentGymTime st;
     goalGymTime := orZ (requiredMinutes (locationGoal s)) 60;
     remainingGymTime :=
       Z.max 0 (orZ (requiredMinutes (locationGoal s)) 60 - currentGymTime st);
     stepGoalAchieved := isStepGoalAchieved st;
     gymGoalAchieved := isGymGoalAchieved st;
     strictModeTimeRemaining :=
       match strictMode s, strictModeActivatedAt s with
       | true, Some activatedAt =>
           if activatedAt =? 0 then None
           else Some (Z.max 0 (strictModeLockDuration - (now - activatedAt)))
       | _, _ => None
       end |}.

(** [checkStepGoal]: the stored progress values, when present, are applied
    through the update operations. *)
Definition checkStepGoal (storedSteps storedGymTime : option Z) (st : Engine) : Engine :=
  let st := match storedSteps with Some n => updateStepCount n st | None => st end in
  match storedGymTime with Some m => updateGymTime m st | None => st end.

(** The constructor: load the settings, then run the initial check. *)
Definition construct (saved : SavedItem) (storedSteps storedGymTime : option Z) : Engine :=
  checkStepGoal storedSteps storedGymTime
    (mkEngine (loadSettings saved) 0 0 false false).

(** One call on the engine: a public operation or the periodic check. *)
Inductive Call : Type :=
| CallUpdateSettings (p : PartialSettings)
| CallUpdateStepCount (n : Z)
| CallUpdateGymTime (m : Z)
| CallCheckStepGoal (storedSteps storedGymTime : option Z).

Definition call (c : Call) (st : Engine) : Engine :=
  match c with
  | CallUpdateSettings p => updateSettings p st
  | CallUpdateStepCount n => updateStepCount n st
  | CallUpdateGymTime m => updateGymTime m st
  | CallCheckStepGoal s g => checkStepGoal s g st
  end.

Definition run (calls : list Call) (st : Engine) : Engine :=
  fold_left (fun st c => call c st) calls st.

(** States the engine can be in: constructed from whatever is persisted,
    then driven through any sequence of calls. *)
Definition reachable (st : Engine) : Prop :=
  exists saved s g calls, st = run calls (construct saved s g).

(** *** The specification's vocabulary *)

(** The host name is on the allow-list: it contains an allowed domain. *)
Definition allowedHost (s : BlockingSettings) (hostname : string) : Prop :=
  exists domain, In domain (allowedDomains s) /\ Substring domain hostname.

(** The host name matches the block-list: containment, in either
    direction, between the host name without a leading [www.] and a
    pattern in lower case without scheme and leading [www.]. *)
Definition blockedHost (s : BlockingSettings) (hostname : string) : Prop :=
  exists pattern,
    In pattern (blockedWebsites s) /\
    (Substring (normalizePattern pattern) (normalizeHostname hostname) \/
     Substring (normalizeHostname hostname) (normalizePattern pattern)).

(** The goals of the tracking mode, read off the current progress and the
    configured thresholds. *)
Definition stepGoalMet (st : Engine) : Prop :=
  currentSteps st >= dailyGoal (settings st).

Definition gymGoalMet (st : Engine) : Prop :=
  currentGymTime st >= requiredMinutes (locationGoal (settings st)).

Definition goalsMet (st : Engine) : Prop :=
  match trackingMode (settings st) with
  | steps => stepGoalMet st
  | location => gymGoalMet st
  | both => stepGoalMet st /\ gymGoalMet st
  end.

(** The same, with the threshold the engine uses for gym minutes: the
    configured minutes, or 60 when these are 0. *)
Definition gymGoalMetOr60 (st : Engine) : Prop :=
  currentGymTime st >= orZ (requiredMinutes (locationGoal (settings st))) 60.

Definition goalsMetOr60 (st : Engine) : Prop :=
  match trackingMode (settings st) with
  | steps => stepGoalMet st
  | location => gymGoalMetOr60 st
  | both => stepGoalMet st /\ gymGoalMetOr60 st
  end.



End BlockingService.

(** ** The block-list claim in the specification's words

    The normal forms the specification names ("lowercased", "scheme and
    leading www. stripped") and the reading of "goals unmet by the current
    values", defined here on their own, without the engine's functions:
    the theorems compare the engine with them. *)

Module Spec.
Import JS BlockingService.

(** The small letter of a capital; any other character is itself. *)
Definition lowerLetter (c : ascii) : ascii :=
  match c with
  | "A" => "a" | "B" => "b" | "C" => "c" | "D" => "d" | "E" => "e" | "F" => "f"
  | "G" => "g" | "H" => "h" | "I" => "i" | "J" => "j" | "K" => "k" | "L" => "l"
  | "M" => "m" | "N" => "n" | "O" => "o" | "P" => "p" | "Q" => "q" | "R" => "r"
  | "S" => "s" | "T" => "t" | "U" => "u" | "V" => "v" | "W" => "w" | "X" => "x"
  | "Y" => "y" | "Z" => "z"
  | _ => c
  end%char.

Fixpoint lowercased (s : string) : string :=
  match s with
  | EmptyString => EmptyString
  | String c r => String (lowerLetter c) (lowercased r)
  end.

(** [s] without [lit] at its front, when [s] starts with [lit]. *)
Definition withoutLeading (lit s : string) : string :=
  if String.prefix lit s
  then substring (String.length lit) (String.length s - String.length lit) s
  else s.

(** The schemes a block-list entry for a web site is written with. *)
Definition schemes : list string := ["https://"; "http://"].

(** [s] without the scheme it starts with, if it starts with one. *)
Definition withoutScheme (s : string) : string :=
  match List.find (fun scheme => String.prefix scheme s) schemes with
  | Some scheme => withoutLeading scheme s
  | None => s
  end.

(** "the normalized hostname (lowercased, leading www. stripped)" *)
Definition normalizedHostname (hostname : string) : string :=
  withoutLeading "www." (lowercased hostname).

(** "the normalized pattern (lowercased, scheme and leading www.
    stripped)" *)
Definition normalizedPattern (pattern : string) : string :=
  withoutLeading "www." (withoutScheme (lowercased pattern)).

(** "matches bidirectionally": the one contains the other. *)
Definition matchesBidirectionally (hostname pattern : string) : Prop :=
  Substring (normalizedPattern pattern) (normalizedHostname hostname) \/
  Substring (normalizedHostname hostname) (normalizedPattern pattern).

(** Text of ASCII characters.  On such text [String.prototype.toLowerCase]
    changes the capitals [A] to [Z] and nothing else; the host names the
    URL parser yields are such text. *)
Definition asciiChar (c : ascii) : bool := (nat_of_ascii c <? 128)%nat.

Fixpoint asciiText (s : string) : bool :=
  match s with
  | EmptyString => true
  | String c r => asciiChar c && asciiText r
  end.

(** The achievement flags say what the current progress and the current
    thresholds give: the step flag is [currentSteps >= dailyGoal], the gym
    flag is [currentGymTime >= requiredMinutes] with 60 in the place of a
    zero [requiredMinutes]. *)
Definition flagsCurrent (st : Engine) : Prop :=
  (isStepGoalAchieved st = true <-> currentSteps st >= dailyGoal (settings st)) /\
  (isGymGoalAchieved st = true <->
   currentGymTime st >=
   (if requiredMinutes (locationGoal (settings st)) =? 0 then 60
    else requiredMinutes (locationGoal (settings st)))).

End Spec.

(** ** Objects and references: what [getSettings] hands out

    The settings object holds its scalars by value and its [locationGoal]
    object and three arrays by reference.  This module keeps the objects
    in a store so that sharing between the engine's object and the object
    [getSettings] returns is visible. *)

Module ObjectModel.

Definition loc : Type := positive.

Inductive jsval : Type :=
| VUndefined
| VBool (b : bool)
| VNum (x : float)
| VInt (n : Z)
| VStr (s : string)
| VRef (l : loc).

Inductive cell : Type :=
| Obj (props : gmap string jsval)
| Arr (elems : list jsval).

Abbreviation heap := (gmap loc cell).

Definition alloc (h : heap) (c : cell) : loc * heap :=
  let l := fresh (dom h) in (l, <[l := c]> h).

(** [{ ...this.settings }]: a new object with the own properties of the
    source, each copied as the value it holds (a reference stays a
    reference to the same object). *)
Definition getSettings (h : heap) (this_settings : loc) : option (loc * heap) :=
  match h !! this_settings with
  | Some (Obj props) => Some (alloc h (Obj props))
  | _ => None
  end.

(** What a caller can do with the object it received. *)
Inductive mutation : Type :=
| SetProp (k : string) (v : jsval)               (* r[k] = v *)
| SetNested (k k' : string) (v : jsval)          (* r[k][k'] = v *)
| Push (k : string) (v : jsval).                 (* r[k].push(v) *)

Definition propOf (h : heap) (r : loc) (k : string) : option jsval :=
  match h !! r with
  | Some (Obj props) => props !! k
  | _ => None
  end.

Definition setProp (h : heap) (r : loc) (k : string) (v : jsval) : heap :=
  match h !! r with
  | Some (Obj props) => <[r := Obj (<[k := v]> props)]> h
  | _ => h
  end.

Definition push (h : heap) (a : loc) (v : jsval) : heap :=
  match h !! a with
  | Some (Arr elems) => <[a := Arr (elems ++ [v])]> h
  | _ => h
  end.

(** A mutation whose access path does not resolve throws in the caller and
    leaves the store as it was. *)
Definition mutate (h : heap) (r : loc) (m : mutation) : heap :=
  match m with
  | SetProp k v => setProp h r k v
  | SetNested k k' v =>
      match propOf h r k with
      | Some (VRef l) => setProp h l k' v
      | _ => h
      end
  | Push k v =>
      match propOf h r k with
      | Some (VRef l) => push h l v
      | _ => h
      end
  end.

Definition deref (h : heap) (v : jsval) : option cell :=
  match v with
  | VRef l => h !! l
  | _ => None
  end.

(** The engine's settings as the engine reads them: the properties of its
    settings object, and the objects these refer to. *)
Definition settingsView (h : heap) (this_settings : loc)
  : option (gmap string jsval * gmap string cell) :=
  match h !! this_settings with
  | Some (Obj props) => Some (props, omap (deref h) props)
  | _ => None
  end.

(** [o[k]] read as an array, and [o[k][k']]. *)
Definition readArray (h : heap) (o : loc) (k : string) : option (list jsval) :=
  match propOf h o k with
  | Some (VRef a) =>
      match h !! a with
      | Some (Arr elems) => Some elems
      | _ => None
      end
  | _ => None
  end.

Definition readNested (h : heap) (o : loc) (k k' : string) : option jsval :=
  match propOf h o k with
  | Some (VRef l) => propOf h l k'
  | _ => None
  end.

(** Every reference held by the settings object points into the store. *)
Definition closedAt (h : heap) (this_settings : loc) : Prop :=
  forall props k l,
    h !! this_settings = Some (Obj props) ->
    props !! k = Some (VRef l) ->
    is_Some (h !! l).

Definition strArray (xs : list string) : cell := Arr (map VStr xs).

Definition modeString (m : BlockingService.TrackingMode) : string :=
  match m with
  | BlockingService.steps => "steps"
  | BlockingService.location => "location"
  | BlockingService.both => "both"
  end.

(** The object graph of a settings value, as the literals in
    [loadSettings] build it: the nested object and the arrays first, then
    the settings object that refers to them. *)
Definition newSettings (s : BlockingService.BlockingSettings) (h : heap) : loc * heap :=
  let g := BlockingService.locationGoal s in
  let '(lg, h) :=
    alloc h (Obj (list_to_map
      [("gymName", VStr (BlockingService.gymName g));
       ("latitude", VNum (BlockingService.latitude g));
       ("longitude", VNum (BlockingService.longitude g));
       ("radiusMeters", VNum (BlockingService.radiusMeters g));
       ("requiredMinutes", VInt (BlockingService.requiredMinutes g))])) in
  let '(la, h) := alloc h (strArray (BlockingService.blockedApps s)) in
  let '(lw, h) := alloc h (strArray (BlockingService.blockedWebsites s)) in
  let '(ld, h) := alloc h (strArray (BlockingService.allowedDomains s)) in
  alloc h (Obj (list_to_map
    [("enabled", VBool (BlockingService.enabled s));
     ("strictMode", VBool (BlockingService.strictMode s));
     ("strictModeActivatedAt",
        match BlockingService.strictModeActivatedAt s with
        | Some t => VInt t
        | None => VUndefined
        end);
     ("trackingMode", VStr (modeString (BlockingService.trackingMode s)));
     ("dailyGoal", VInt (BlockingService.dailyGoal s));
     ("locationGoal", VRef lg);
     ("blockedApps", VRef la);
     ("blockedWebsites", VRef lw);
     ("allowedDomains", VRef ld);
     ("blockingMessage", VStr (BlockingService.blockingMessage s))])).

(** The store of an engine constructed with nothing persisted. *)
Definition freshEngine : loc * heap :=
  newSettings BlockingService.defaultSettings ∅.

End ObjectModel.

(** ** The gym-session detector ([LocationTracker])

    A function component.  Its state lives in hooks; every render binds
    the current hook values to constants ([isAtGym], [gymSessionStart],
    [totalGymTimeToday], ...).  [successCallback] is created inside
    [startTracking], and [startTracking] is called by the effect whose
    dependency list is [[isTracking]]: the callback registered with
    [watchPosition] therefore reads the constants of the render in which
    tracking was switched on, while the setters it calls act on the
    current state. *)

Module LocationTracker.
Import JS.

Record LocationData : Type := mkLocationData {
  latitude : float;
  longitude : float;
  accuracy : float;
  timestamp : Z
}.

(** The [gymLocation] prop. *)
Record GymLocation : Type := mkGymLocation {
  gym_latitude : float;
  gym_longitude : float;
  gym_name : string;
  radiusMeters : float
}.

(** The hook values the detector uses.  ([estimatedSteps], [error],
    [isLoading] and [watchId] play no part in it and are left out.) *)
Record Hooks : Type := mkHooks {
  currentLocation : option LocationData;
  isTracking : bool;
  locationHistory : list LocationData;
  isAtGym : bool;
  gymSessionStart : option Z;
  totalGymTimeToday : Z;
  currentSessionTime : Z
}.

(** What the callback does to the outside world. [SetItem t v] is
    [localStorage.setItem("stepTracker_gymTime_" + day, v)] with [day]
    the calendar day of the instant [t]. *)
Inductive Effect : Type :=
| SetItem (t : Z) (v : Z)
| GymStatusChange (atGym : bool) (timeSpent : Z)
| LocationUpdate (l : LocationData).

Definition setCurrentLocation (v : option LocationData) (h : Hooks) : Hooks :=
  mkHooks v (isTracking h) (locationHistory h) (isAtGym h) (gymSessionStart h)
          (totalGymTimeToday h) (currentSessionTime h).

Definition setLocationHistory (f : list LocationData -> list LocationData) (h : Hooks)
  : Hooks :=
  mkHooks (currentLocation h) (isTracking h) (f (locationHistory h)) (isAtGym h)
          (gymSessionStart h) (totalGymTimeToday h) (currentSessionTime h).

Definition setIsTracking (v : bool) (h : Hooks) : Hooks :=
  mkHooks (currentLocation h) v (locationHistory h) (isAtGym h) (gymSessionStart h)
          (totalGymTimeToday h) (currentSessionTime h).

Definition setIsAtGym (v : bool) (h : Hooks) : Hooks :=
  mkHooks (currentLocation h) (isTracking h) (locationHistory h) v (gymSessionStart h)
          (totalGymTimeToday h) (currentSessionTime h).

Definition setGymSessionStart (v : option Z) (h : Hooks) : Hooks :=
  mkHooks (currentLocation h) (isTracking h) (locationHistory h) (isAtGym h) v
          (totalGymTimeToday h) (currentSessionTime h).

Definition setTotalGymTimeToday (v : Z) (h : Hooks) : Hooks :=
  mkHooks (currentLocation h) (isTracking h) (locationHistory h) (isAtGym h)
          (gymSessionStart h) v (currentSessionTime h).

Definition setCurrentSessionTime (v : Z) (h : Hooks) : Hooks :=
  mkHooks (currentLocation h) (isTracking h) (locationHistory h) (isAtGym h)
          (gymSessionStart h) (totalGymTimeToday h) v.

(** [xs.slice(-50)] *)
Definition sliceLast50 {A : Type} (xs : list A) : list A :=
  skipn (length xs - 50)%nat xs.

(** The detection radius: the configured radius, widened to one and a half
    times the reported accuracy when that is larger. *)
Definition effectiveRadius (gymLocation : GymLocation) (locationData : LocationData)
  : float :=
  Math_max (radiusMeters gymLocation) (accuracy locationData * 1.5)%float.

Section WithDistance.

(** [calculateDistance] is the haversine formula over [Math.sin],
    [Math.cos] and [Math.atan2]; the detector only compares its result
    with the effective radius, so it is taken as given. *)
Variable calculateDistance : float -> float -> float -> float -> float.

(** The [gymLocation] prop of the render the callback was created in. *)
Variable gymLocation : option GymLocation.

Definition nowAtGym (gym : GymLocation) (locationData : LocationData) : bool :=
  (calculateDistance (latitude locationData) (longitude locationData)
                     (gym_latitude gym) (gym_longitude gym)
   <=? effectiveRadius gym locationData)%float.

(** The gym branch of [successCallback].  [env] holds the constants the
    callback closes over, [now] is the reading of [new Date()], and [h]
    is the state the setters act on. *)
Definition gymCheck (env : Hooks) (locationData : LocationData) (now : Z) (h : Hooks)
  : Hooks * list Effect :=
  match gymLocation with
  | None => (h, [])
  | Some gym =>
      let wasAtGym := isAtGym env in
      let nowAtGym := nowAtGym gym locationData in
      if nowAtGym && negb wasAtGym then
        (setCurrentSessionTime 0 (setGymSessionStart (Some now) (setIsAtGym true h)), [])
      else if negb nowAtGym && wasAtGym then
        let h := setIsAtGym false h in
        let '(h, effs) :=
          match gymSessionStart env with
          | Some start =>
              let sessionMinutes := floorDiv (now - start) (1000 * 60) in
              let newTotalTime := totalGymTimeToday env + sessionMinutes in
              (setTotalGymTimeToday newTotalTime h,
               [SetItem now newTotalTime; GymStatusChange false newTotalTime])
          | None => (h, [])
          end in
        (setCurrentSessionTime 0 (setGymSessionStart None h), effs)
      else
        match nowAtGym && wasAtGym, gymSessionStart env with
        | true, Some start =>
            let sessionMinutes := floorDiv (now - start) (1000 * 60) in
            (setCurrentSessionTime sessionMinutes h,
             [GymStatusChange true (totalGymTimeToday env + sessionMinutes)])
        | _, _ => (h, [])
        end
  end.

Definition successCallback (env : Hooks) (locationData : LocationData) (now : Z)
    (h : Hooks) : Hooks * list Effect :=
  let h := setCurrentLocation (Some locationData) h in
  let h := setLocationHistory (fun prev => sliceLast50 (prev ++ [locationData])%list) h in
  let '(h, effs) := gymCheck env locationData now h in
  (h, (effs ++ [LocationUpdate locationData])%list).

(** The mounted component: the current hook values, and the constants the
    registered position callback closes over ([None] while no watch is
    registered). *)
Record Tracker : Type := mkTracker {
  hooks : Hooks;
  watch : option Hooks
}.

Definition initialHooks (trackingEnabled : bool) : Hooks :=
  mkHooks None trackingEnabled [] false None 0 0.

(** Mounting: the first render, then the tracking effect (which registers
    the callback of that render when tracking is enabled), then the effect
    that seeds today's total from the per-day slot. *)
Definition mount (trackingEnabled : bool) (storedGymTime : option Z) : Tracker :=
  let h0 := initialHooks trackingEnabled in
  let registered := if trackingEnabled then Some h0 else None in
  let h := match storedGymTime with
           | Some v => setTotalGymTimeToday v h0
           | None => h0
           end in
  mkTracker h registered.

(** [toggleTracking]: the next render has [isTracking] flipped and the
    tracking effect runs again, clearing the watch or registering the
    callback of that render. *)
Definition toggleTracking (t : Tracker) : Tracker :=
  let h := setIsTracking (negb (isTracking (hooks t))) (hooks t) in
  mkTracker h (if isTracking h then Some h else None).

(** The browser delivers a fix to the registered callback. *)
Definition deliver (locationData : LocationData) (now : Z) (t : Tracker)
  : Tracker * list Effect :=
  match watch t with
  | None => (t, [])
  | Some env =>
      let '(h, effs) := successCallback env locationData now (hooks t) in
      (mkTracker h (Some env), effs)
  end.

(** A run of fixes, each with the clock reading at its delivery. *)
Fixpoint deliverAll (fixes : list (LocationData * Z)) (t : Tracker)
  : Tracker * list Effect :=
  match fixes with
  | [] => (t, [])
  | (l, now) :: rest =>
      let '(t1, e1) := deliver l now t in
      let '(t2, e2) := deliverAll rest t1 in
      (t2, (e1 ++ e2)%list)
  end.

End WithDistance.

(** A planar stand-in for the haversine distance, in metres, used to run
    the detector on concrete fixes near the origin. *)
Definition flatDistance (lat1 lon1 lat2 lon2 : float) : float :=
  (111195 * PrimFloat.sqrt ((lat2 - lat1) * (lat2 - lat1) + (lon2 - lon1) * (lon2 - lon1)))%float.

End LocationTracker.

(** ** Concrete inputs for examples *)

Module Examples.
Import JS.

Fixpoint upToSlash (s : string) : string :=
  match s with
  | EmptyString => EmptyString
  | String c r => if Ascii.eqb c "/" then EmptyString else String c (upToSlash r)
  end.

Definition hostOf (rest : string) : completion string :=
  match upToSlash rest with
  | EmptyString => Throw TypeError
  | h => Return (toLowerCase h)
  end.

(** A stand-in for the URL constructor, defined on the shapes the
    examples use: [http://host/...] and [https://host/...] give the host,
    any other text is rejected. *)
Definition exampleURL (url : string) : completion string :=
  match dropPrefix "https://" url with
  | Some rest => hostOf rest
  | None =>
      match dropPrefix "http://" url with
      | Some rest => hostOf rest
      | None => Throw TypeError
      end
  end.

(** Engines reached from a first start (nothing persisted). *)
Import BlockingService.

Definition firstStart : Engine := construct NoItem None None.

Definition onlyEnabled (b : bool) : PartialSettings :=
  mkPartial (Some b) None None None None None None None None None.

Definition onlyDailyGoal (n : Z) : PartialSettings :=
  mkPartial None None None None (Some n) None None None None None.



(** Blocking switched on, everything else at its default. *)
Definition blockingOn : Engine := updateSettings (onlyEnabled true) firstStart.

(** 5000 steps reported against the default goal, then the goal lowered
    to 3000. *)
Definition goalLowered : Engine :=
  updateSettings (onlyDailyGoal 3000) (updateStepCount 5000 blockingOn).

(** 10000 steps reported against the default goal of 10000, then the
    goal raised to 20000. *)
Definition goalRaised : Engine :=
  updateSettings (onlyDailyGoal 20000) (updateStepCount 10000 blockingOn).

(** A block-list written with capitals, schemes and [www.]; 4000 steps
    reported. *)
Definition loudPatterns : Engine :=
  updateStepCount 4000
    (updateSettings
       (mkPartial (Some true) None None None None None None
                  (Some ["HTTPS://WWW.FaceBook.COM"; "http://www.Intranet.Example.ORG"])
                  None None)
       firstStart).

(** Location mode with zero required minutes, then 30 gym minutes
    reported. *)
Definition zeroMinutes : Engine :=
  updateGymTime 30
    (updateSettings
       (mkPartial (Some true) None None (Some location) None
                  (Some (mkLocationGoal "My Gym" 0%float 0%float 150%float 0))
                  None None None None)
       firstStart).

(** An engine whose allow-list and block-list both name the same site. *)
Definition allowedAndBlocked : Engine :=
  updateSettings
    (mkPartial (Some true) None None None None None None
               (Some ["example.com"]) (Some ["example.com"]) None)
    firstStart.



(** The settings object of a freshly constructed engine, and its store. *)
Definition engineObject : ObjectModel.loc := ObjectModel.freshEngine.1.

Definition engineStore : gmap ObjectModel.loc ObjectModel.cell :=
  ObjectModel.freshEngine.2.

(** A gym at the origin with the engine's radius, a fix on the spot, and
    a fix about 870 m to the north, both with 20 m accuracy. *)
Definition originGym : LocationTracker.GymLocation :=
  LocationTracker.mkGymLocation 0%float 0%float "My Gym" 150%float.

Definition fixInside : LocationTracker.LocationData :=
  LocationTracker.mkLocationData 0%float 0%float 20%float 1700000000000.

Definition fixOutside : LocationTracker.LocationData :=
  LocationTracker.mkLocationData 0.0078125%float 0%float 20%float 1700002520000.

(** A fix about 220 m from the gym, with an accuracy of 200 m. *)
Definition fixCoarse : LocationTracker.LocationData :=
  LocationTracker.mkLocationData 0.001953125%float 0%float 200%float 1700000000000.

(** The component mounted with tracking on and 17 minutes already stored
    for the day; then the fix on the spot, and 42 minutes later the fix
    away from the gym. *)
Definition arrived : LocationTracker.Tracker * list LocationTracker.Effect :=
  LocationTracker.deliver LocationTracker.flatDistance (Some originGym)
    fixInside 1700000000000 (LocationTracker.mount true (Some 17)).

Definition departed : LocationTracker.Tracker * list LocationTracker.Effect :=
  LocationTracker.deliver LocationTracker.flatDistance (Some originGym)
    fixOutside 1700002520000 arrived.1.

End Examples.

(** ** The engine with its subscribers

    [listeners] is a [Set] of callbacks: insertion keeps the first
    occurrence, and iteration follows insertion order.  A callback is
    identified by a number; what it receives is recorded as a delivery.
    (The callbacks registered by the components only store the status
    they are handed; they do not call back into the service.) *)

Module Subscribers.
Import BlockingService.

Definition Listener : Type := nat.

Record Service : Type := mkService {
  engine : Engine;
  listeners : list Listener
}.

Definition Delivery : Type := (Listener * BlockingStatus)%type.

(** [Set.prototype.add] and [Set.prototype.delete] *)
Definition setAdd (cb : Listener) (ls : list Listener) : list Listener :=
  if existsb (Nat.eqb cb) ls then ls else (ls ++ [cb])%list.

Definition setDelete (cb : Listener) (ls : list Listener) : list Listener :=
  List.filter (fun x => negb (Nat.eqb cb x)) ls.

Definition addListener (cb : Listener) (s : Service) : Service :=
  mkService (engine s) (setAdd cb (listeners s)).

Definition removeListener (cb : Listener) (s : Service) : Service :=
  mkService (engine s) (setDelete cb (listeners s)).

(** [notifyListeners]: one status, computed once, handed to every
    listener.  [now] is the reading of [Date.now()]. *)
Definition notifyListeners (now : Z) (s : Service) : list Delivery :=
  let status := getBlockingStatus now (engine s) in
  map (fun callback => (callback, status)) (listeners s).

Definition updateSettings (now : Z) (p : PartialSettings) (s : Service)
  : Service * list Delivery :=
  let s := mkService (BlockingService.updateSettings p (engine s)) (listeners s) in
  (s, notifyListeners now s).

Definition updateStepCount (now : Z) (steps : Z) (s : Service) : Service * list Delivery :=
  let s := mkService (BlockingService.updateStepCount steps (engine s)) (listeners s) in
  (s, notifyListeners now s).

Definition updateGymTime (now : Z) (minutes : Z) (s : Service) : Service * list Delivery :=
  let s := mkService (BlockingService.updateGymTime minutes (engine s)) (listeners s) in
  (s, notifyListeners now s).

Definition destroy (s : Service) : Service := mkService (engine s) [].

(** What a client can do with the service. *)
Inductive Op : Type :=
| OpAdd (cb : Listener)
| OpRemove (cb : Listener)
| OpUpdateSettings (p : PartialSettings)
| OpUpdateStepCount (steps : Z)
| OpUpdateGymTime (minutes : Z)
| OpDestroy.

Definition step (now : Z) (op : Op) (s : Service) : Service * list Delivery :=
  match op with
  | OpAdd cb => (addListener cb s, [])
  | OpRemove cb => (removeListener cb s, [])
  | OpUpdateSettings p => updateSettings now p s
  | OpUpdateStepCount n => updateStepCount now n s
  | OpUpdateGymTime m => updateGymTime now m s
  | OpDestroy => (destroy s, [])
  end.

(** A sequence of operations, each with the clock reading at its time;
    the deliveries are collected in the order they are made. *)
Fixpoint steps (ops : list (Op * Z)) (s : Service) : Service * list Delivery :=
  match ops with
  | [] => (s, [])
  | (op, now) :: rest =>
      let '(s1, d1) := step now op s in
      let '(s2, d2) := steps rest s1 in
      (s2, (d1 ++ d2)%list)
  end.

(** The service as its constructor leaves it: no listener yet. *)
Definition construct (saved : SavedItem) (storedSteps storedGymTime : option Z) : Service :=
  mkService (BlockingService.construct saved storedSteps storedGymTime) [].

End Subscribers.

(** ** The first revision of the engine

    Steps only, with a strict mode that refuses to switch blocking off.
    [updateSettings] stores whatever its argument carries, so a property
    of the settings object holds a value or [undefined]. *)

Module BlockingServiceV1.
Import JS.

(** The settings object; [None] is a property that is missing or holds
    [undefined]. *)
Record BlockingSettings : Type := mkBlockingSettings {
  enabled : option bool;
  strictMode : option bool;
  dailyGoal : option Z;
  blockedApps : option (list string);
  blockedWebsites : option (list string);
  allowedDomains : option (list string);
  blockingMessage : option string
}.

(** [Partial<BlockingSettings>]: a key is absent ([None]), or present with
    [undefined] ([Some None]) or with a value ([Some (Some v)]). *)
Record PartialSettings : Type := mkPartial {
  p_enabled : option (option bool);
  p_strictMode : option (option bool);
  p_dailyGoal : option (option Z);
  p_blockedApps : option (option (list string));
  p_blockedWebsites : option (option (list string));
  p_allowedDomains : option (option (list string));
  p_blockingMessage : option (option string)
}.

(** The persisted slot: absent, not parseable, or a settings object. *)
Inductive SavedItem : Type :=
| NoItem
| Corrupt (e : exn)
| Saved (s : BlockingSettings).

Definition defaultSettings : BlockingSettings :=
  {| enabled := Some false;
     strictMode := Some false;
     dailyGoal := Some 10000;
     blockedApps := Some ["Social Media"; "Games"; "Video Streaming"];
     blockedWebsites :=
       Some ["facebook.com"; "twitter.com"; "instagram.com"; "youtube.com"; "tiktok.com"];
     allowedDomains := Some ["localhost"; "127.0.0.1"];
     blockingMessage :=
       Some "This site is blocked until you reach your daily step goal!" |}.

(** [JSON.parse] is not guarded here: what it throws leaves the
    function. *)
Definition loadSettings (saved : SavedItem) : completion BlockingSettings :=
  match saved with
  | Saved parsed => Return parsed
  | Corrupt e => Throw e
  | NoItem => Return defaultSettings
  end.

Record Engine : Type := mkEngine {
  settings : BlockingSettings;
  currentSteps : Z;
  isGoalAchieved : bool
}.

(** A boolean property in a condition: [undefined] is falsy. *)
Definition isTrue (b : option bool) : bool :=
  match b with Some true => true | _ => false end.

Definition pick {A : Type} (new : option A) (old : A) : A :=
  match new with Some v => v | None => old end.

(** [{ ...s, ...p }]: every key present in [p] wins, also with
    [undefined]. *)
Definition spread (s : BlockingSettings) (p : PartialSettings) : BlockingSettings :=
  {| enabled := pick (p_enabled p) (enabled s);
     strictMode := pick (p_strictMode p) (strictMode s);
     dailyGoal := pick (p_dailyGoal p) (dailyGoal s);
     blockedApps := pick (p_blockedApps p) (blockedApps s);
     blockedWebsites := pick (p_blockedWebsites p) (blockedWebsites s);
     allowedDomains := pick (p_allowedDomains p) (allowedDomains s);
     blockingMessage := pick (p_blockingMessage p) (blockingMessage s) |}.

(** [newSettings.enabled === false] *)
Definition disables (p : PartialSettings) : bool :=
  match p_enabled p with Some (Some false) => true | _ => false end.

Definition updateSettings (newSettings : PartialSettings) (st : Engine) : Engine :=
  if isTrue (strictMode (settings st)) && disables newSettings then st
  else mkEngine (spread (settings st) newSettings) (currentSteps st) (isGoalAchieved st).

(** [steps >= this.settings.dailyGoal]: a comparison with [undefined] is
    false. *)
Definition updateStepCount (steps : Z) (st : Engine) : Engine :=
  mkEngine (settings st) steps
           (match dailyGoal (settings st) with
            | Some goal => steps >=? goal
            | None => false
            end).

(** [xs.some(f)]: the property access throws when [xs] is [undefined]. *)
Definition someOf {A : Type} (f : A -> bool) (xs : option (list A)) : completion bool :=
  match xs with
  | Some xs => Return (some f xs)
  | None => Throw TypeError
  end.

Section WithURL.

Variable new_URL : string -> completion string.

Definition shouldBlockWebsite (st : Engine) (url : string) : completion bool :=
  if negb (isTrue (enabled (settings st))) || isGoalAchieved st then Return false
  else
    try_catch
      (bind (new_URL url) (fun urlObj_hostname =>
         let hostname := toLowerCase urlObj_hostname in
         bind (someOf (fun domain => includes hostname domain)
                      (allowedDomains (settings st)))
              (fun allowed =>
                 if allowed then Return false
                 else someOf (BlockingService.matchesPattern hostname)
                             (blockedWebsites (settings st)))))
      (fun error => Return false).

End WithURL.

(** The status object.  [isBlocked] is [undefined] when [enabled] is;
    [goalSteps] is the stored goal; [remainingSteps] is [NaN] ([None])
    when the goal is [undefined]. *)
Record BlockingStatus : Type := mkStatus {
  isBlocked : option bool;
  reason : string;
  status_currentSteps : Z;
  goalSteps : option Z;
  remainingSteps : option Z
}.

Definition getBlockingStatus (st : Engine) : BlockingStatus :=
  {| isBlocked :=
       match enabled (settings st) with
       | Some true => Some (negb (isGoalAchieved st))
       | Some false => Some false
       | None => None
       end;
     reason := if isGoalAchieved st then "Goal achieved" else "Step goal not reached";
     status_currentSteps := currentSteps st;
     goalSteps := dailyGoal (settings st);
     remainingSteps :=
       match dailyGoal (settings st) with
       | Some goal => Some (Z.max 0 (goal - currentSteps st))
       | None => None
       end |}.

(** The constructor: load the settings, then apply the stored step
    count if there is one. *)
Definition construct (saved : SavedItem) (storedSteps : option Z) : completion Engine :=
  bind (loadSettings saved) (fun s =>
    let st := mkEngine s 0 false in
    Return (match storedSteps with
            | Some n => updateStepCount n st
            | None => st
            end)).

(** How a state of the later engine in the mode [steps] reads as a state
    of this one. *)
Definition ofLater (st : BlockingService.Engine) : Engine :=
  let s := BlockingService.settings st in
  mkEngine
    {| enabled := Some (BlockingService.enabled s);
       strictMode := Some (BlockingService.strictMode s);
       dailyGoal := Some (BlockingService.dailyGoal s);
       blockedApps := Some (BlockingService.blockedApps s);
       blockedWebsites := Some (BlockingService.blockedWebsites s);
       allowedDomains := Some (BlockingService.allowedDomains s);
       blockingMessage := Some (BlockingService.blockingMessage s) |}
    (BlockingService.currentSteps st)
    (BlockingService.isStepGoalAchieved st).

End BlockingServiceV1.

(** ** The dashboard's wiring of progress into the engine *)

Module Dashboard.
Import BlockingService.

(** A [localStorage.setItem] call. *)
Definition StorageWrite : Type := (string * Z)%type.

(** The [onGymStatusChange] handler given to the location tracker: only a
    departure is passed on. *)
Definition onGymStatusChange (isAtGym : bool) (timeSpent : Z) (st : Engine)
  : Engine * list StorageWrite :=
  if negb isAtGym
  then (updateGymTime timeSpent st, [("stepTracker_gymTime", timeSpent)])
  else (st, []).

Definition handle (e : LocationTracker.Effect) (st : Engine) : Engine * list StorageWrite :=
  match e with
  | LocationTracker.GymStatusChange atGym timeSpent => onGymStatusChange atGym timeSpent st
  | _ => (st, [])
  end.

Fixpoint handleAll (effs : list LocationTracker.Effect) (st : Engine)
  : Engine * list StorageWrite :=
  match effs with
  | [] => (st, [])
  | e :: rest =>
      let '(st1, w1) := handle e st in
      let '(st2, w2) := handleAll rest st1 in
      (st2, (w1 ++ w2)%list)
  end.

(** The effect that pushes the dashboard's current values into the
    engine: steps in the mode [steps], gym minutes in every other mode. *)
Definition syncProgress (trackingMode : TrackingMode) (currentSteps currentGymTime : Z)
    (st : Engine) : Engine * list StorageWrite :=
  match trackingMode with
  | steps => (updateStepCount currentSteps st, [("stepTracker_currentSteps", currentSteps)])
  | _ => (updateGymTime currentGymTime st, [("stepTracker_gymTime", currentGymTime)])
  end.

(** The totals carried by the departure events of a run. *)
Definition departures (effs : list LocationTracker.Effect) : list Z :=
  flat_map (fun e => match e with
                     | LocationTracker.GymStatusChange false timeSpent => [timeSpent]
                     | _ => []
                     end) effs.

End Dashboard.

(** ** The navigation interception layer ([ContentBlocker])

    What [init] installs is counted: every call of
    [setupNavigationBlocking] wraps [history.pushState] and
    [history.replaceState] in one more layer and adds one more click and
    one more submit listener to the document.  The observer's callback
    puts click listeners of their own on anchors; the blocker keeps the
    list of them.  The decision of the engine at the time of an event is
    the function [blocks]. *)

Module ContentBlocker.

(** An anchor element of the document. *)
Definition Anchor : Type := nat.

Record Blocker : Type := mkBlocker {
  isInitialized : bool;
  observer : bool;          (* a connected [MutationObserver] is held *)
  historyGuards : nat;      (* layers around [pushState] and [replaceState] *)
  clickGuards : nat;        (* capturing click listeners on the document *)
  submitGuards : nat;       (* capturing submit listeners on the document *)
  keydownGuards : nat;      (* keydown listeners added with the overlay *)
  overlayShown : bool;      (* the body was replaced by the overlay *)
  linkGuards : list (Anchor * string)
                            (* click listeners on anchors, each with the
                               [href] it was created for *)
}.

(** The singleton as the module creates it. *)
Definition fresh : Blocker := mkBlocker false false 0 0 0 0 false [].

(** [blockCurrentPage] *)
Definition blockCurrentPage (b : Blocker) : Blocker :=
  mkBlocker (isInitialized b) (observer b) (historyGuards b) (clickGuards b)
            (submitGuards b) (S (keydownGuards b)) true (linkGuards b).

(** [init]; [currentPageBlocked] is the engine's answer for
    [window.location.href] at that moment. *)
Definition init (currentPageBlocked : bool) (b : Blocker) : Blocker :=
  if isInitialized b then b
  else
    let b := mkBlocker true (observer b) (historyGuards b) (clickGuards b)
                       (submitGuards b) (keydownGuards b) (overlayShown b)
                       (linkGuards b) in
    (* setupPageBlocking *)
    let b := if currentPageBlocked then blockCurrentPage b else b in
    (* setupNavigationBlocking *)
    let b := mkBlocker (isInitialized b) (observer b) (S (historyGuards b))
                       (S (clickGuards b)) (S (submitGuards b)) (keydownGuards b)
                       (overlayShown b) (linkGuards b) in
    (* setupDOMObserver *)
    mkBlocker (isInitialized b) true (historyGuards b) (clickGuards b) (submitGuards b)
              (keydownGuards b) (overlayShown b) (linkGuards b).

Definition destroy (b : Blocker) : Blocker :=
  mkBlocker false false (historyGuards b) (clickGuards b) (submitGuards b)
            (keydownGuards b) (overlayShown b) (linkGuards b).

(** A string in a condition: the empty string is falsy. *)
Definition nonEmpty (s : string) : bool :=
  match s with EmptyString => false | _ => true end.

(** The click listeners the observer has put on the anchor [a]. *)
Definition guardsOn (a : Anchor) (b : Blocker) : nat :=
  length (List.filter (fun guard => Nat.eqb (fst guard) a) (linkGuards b)).

(** An element node added to the document: the [src] of the iframes and
    the anchors with an [href] among its descendants. *)
Record AddedElement : Type := mkAdded {
  iframes : list string;
  links : list (Anchor * string)
}.

Section WithDecision.

Variable blocks : string -> bool.

(** A call of [history.pushState(state, title, url)] (or [replaceState])
    through the installed layers: [true] when it reaches the browser's
    own function.  [url] is [None] for [null] or [undefined]. *)
Fixpoint throughGuards (layers : nat) (url : option string) : bool :=
  match layers with
  | O => true
  | S inner =>
      match url with
      | Some u => if nonEmpty u && blocks u then false else throughGuards inner url
      | None => throughGuards inner url
      end
  end.

Definition pushState (b : Blocker) (url : option string) : bool :=
  throughGuards (historyGuards b) url.

(** An event seen by [guards] capturing listeners on the document, for a
    link with the given [href] or a form with the given [action]: whether
    the default action was prevented, and how many "blocked"
    notifications were shown.  A listener that prevents the default also
    stops the propagation. *)
Definition guardedEvent (guards : nat) (target : string) : bool * nat :=
  if nonEmpty target && blocks target
  then (negb (Nat.eqb guards 0), guards)
  else (false, O).

(** A click on the anchor [a] whose [href] is [href].  The listeners on
    the document see it first; when one of them stops the propagation the
    click does not reach the anchor.  Otherwise every listener the
    observer put on the anchor prevents the default and shows a
    notification, whatever the engine says by then. *)
Definition click (b : Blocker) (a : Anchor) (href : string) : bool * nat :=
  if fst (guardedEvent (clickGuards b) href)
  then guardedEvent (clickGuards b) href
  else (negb (Nat.eqb (guardsOn a b) 0), guardsOn a b).

Definition submit (b : Blocker) (action : string) : bool * nat :=
  guardedEvent (submitGuards b) action.

(** The observer's callback on one added element: the blocked iframes are
    removed, and every link the engine blocks at this moment gets a click
    listener of its own.  The result is the blocker and the iframes that
    stay in the document. *)
Definition onAdded (b : Blocker) (el : AddedElement) : Blocker * list string :=
  if observer b
  then (mkBlocker (isInitialized b) (observer b) (historyGuards b) (clickGuards b)
                  (submitGuards b) (keydownGuards b) (overlayShown b)
                  (linkGuards b ++ List.filter (fun link => blocks (snd link)) (links el)),
        List.filter (fun src => negb (nonEmpty src && blocks src)) (iframes el))
  else (b, iframes el).

End WithDecision.

(** [init] and [destroy] calls and observer callbacks, in order; each
    [init] with the engine's answer for the current page, each callback
    with the engine's decision function, at that moment. *)
Inductive Op : Type :=
| OpInit (currentPageBlocked : bool)
| OpDestroy
| OpAdded (blocks : string -> bool) (el : AddedElement).

Definition step (op : Op) (b : Blocker) : Blocker :=
  match op with
  | OpInit c => init c b
  | OpDestroy => destroy b
  | OpAdded blocks el => fst (onAdded blocks b el)
  end.

Definition run (ops : list Op) (b : Blocker) : Blocker :=
  fold_left (fun b op => step op b) ops b.

(** The [init] calls of a sequence that find the blocker not
    initialised, starting from the state [initialized]. *)
Fixpoint effectiveInits (initialized : bool) (ops : list Op) : nat :=
  match ops with
  | [] => O
  | OpInit _ :: rest =>
      if initialized then effectiveInits true rest else S (effectiveInits true rest)
  | OpDestroy :: rest => effectiveInits false rest
  | OpAdded _ _ :: rest => effectiveInits initialized rest
  end.

(** The engine's decision as the blocker uses it ([shouldBlockWebsite]
    always completes normally). *)
Definition decision (new_URL : string -> JS.completion string)
    (st : BlockingService.Engine) (url : string) : bool :=
  match BlockingService.shouldBlockWebsite new_URL st url with
  | JS.Return b => b
  | JS.Throw _ => false
  end.

End ContentBlocker.

(** ** Favourite gyms in the settings panel *)

Module Favorites.
Import JS.

Record FavoriteGym : Type := mkFavorite {
  id : string;
  name : string;
  address : string;
  lat : float;
  lng : float;
  dateAdded : Z
}.

(** A place as the map search returns it: [place_id] and the geometry may
    be missing. *)
Record Place : Type := mkPlace {
  place_id : option string;
  place_name : string;
  formatted_address : string;
  location : option (float * float)
}.

Definition sameGym (newFavorite fav : FavoriteGym) : bool :=
  String.eqb (id fav) (id newFavorite) || String.eqb (name fav) (name newFavorite).

(** [addToFavorites].  [now] is the reading of [Date.now()], and
    [generated] the identifier built from the clock and [Math.random()],
    used when the place carries none.  The result is the list the panel
    keeps and stores; it is the old list when nothing is added. *)
Definition addToFavorites (place : Place) (now : Z) (generated : string)
    (favoriteGyms : list FavoriteGym) : list FavoriteGym :=
  match location place with
  | None => favoriteGyms
  | Some (latitude, longitude) =>
      let newFavorite :=
        mkFavorite (orUndefStr (place_id place) generated) (place_name place)
                   (formatted_address place) latitude longitude now in
      let isAlreadyFavorite := some (sameGym newFavorite) favoriteGyms in
      if negb isAlreadyFavorite && (length favoriteGyms <? 15)%nat
      then (favoriteGyms ++ [newFavorite])%list
      else favoriteGyms
  end.

(** [removeFromFavorites] *)
Definition removeFromFavorites (gymId : string) (favoriteGyms : list FavoriteGym)
  : list FavoriteGym :=
  List.filter (fun fav => negb (String.eqb (id fav) gymId)) favoriteGyms.

(** What the user does with the list. *)
Inductive Op : Type :=
| OpAdd (place : Place) (now : Z) (generated : string)
| OpRemove (gymId : string).

Definition step (op : Op) (favs : list FavoriteGym) : list FavoriteGym :=
  match op with
  | OpAdd place now generated => addToFavorites place now generated favs
  | OpRemove gymId => removeFromFavorites gymId favs
  end.

Definition run (ops : list Op) (favs : list FavoriteGym) : list FavoriteGym :=
  fold_left (fun favs op => step op favs) ops favs.

(** No two favourites share an identifier or a name. *)
Definition distinctGyms (favs : list FavoriteGym) : Prop :=
  List.NoDup (map id favs) /\ List.NoDup (map name favs).

End Favorites.

(** ** [updateSettings] on objects

    The argument of [updateSettings] is an object of the caller.  The
    function rewrites it in place and then builds the new settings
    object from the old one and the argument, property by property. *)

Module ObjectUpdate.
Import ObjectModel.

(** [this.settings = { ...this.settings, ...newSettings }] after the
    three in-place rewrites; the result is the new settings object and
    the store.  (By its type [locationGoal] is an object when present.) *)
Definition updateSettings (h : heap) (this_settings newSettings : loc)
  : option (loc * heap) :=
  let h :=
    match propOf h newSettings "strictMode" with
    | Some (VBool true) => setProp h newSettings "strictMode" (VBool false)
    | _ => h
    end in
  let h :=
    match propOf h newSettings "strictMode" with
    | Some (VBool false) => setProp h newSettings "strictModeActivatedAt" VUndefined
    | _ => h
    end in
  let h :=
    match propOf h newSettings "locationGoal" with
    | Some (VRef g) => setProp h g "radiusMeters" (VNum 150%float)
    | _ => h
    end in
  match h !! this_settings, h !! newSettings with
  | Some (Obj old), Some (Obj new) => Some (alloc h (Obj (new ∪ old)))
  | _, _ => None
  end.

End ObjectUpdate.

(** ** More concrete inputs *)

Module MoreExamples.
Import Examples.

(** A first-revision engine with blocking and strict mode on. *)
Definition strictEngine : BlockingServiceV1.Engine :=
  BlockingServiceV1.mkEngine
    (BlockingServiceV1.mkBlockingSettings (Some true) (Some true) (Some 10000) (Some [])
       (Some ["facebook.com"]) (Some ["localhost"]) (Some "Blocked"))
    0 false.

(** [{ enabled: false }], [{ enabled: undefined }] and
    [{ strictMode: false }]. *)
Definition switchOff : BlockingServiceV1.PartialSettings :=
  BlockingServiceV1.mkPartial (Some (Some false)) None None None None None None.

Definition enabledUndefined : BlockingServiceV1.PartialSettings :=
  BlockingServiceV1.mkPartial (Some None) None None None None None None.

Definition strictOff : BlockingServiceV1.PartialSettings :=
  BlockingServiceV1.mkPartial None (Some (Some false)) None None None None None.

(** The goal reached after blocking was switched on. *)
Definition goalReached : BlockingService.Engine :=
  BlockingService.updateStepCount 12000 blockingOn.

(** An initialised blocker, and an element that brings an iframe and two
    links into the document. *)
Definition watching : ContentBlocker.Blocker :=
  ContentBlocker.init false ContentBlocker.fresh.

Definition addedLinks : ContentBlocker.AddedElement :=
  ContentBlocker.mkAdded ["https://facebook.com/embed"]
    [(7%nat, "https://facebook.com/page"); (8%nat, "https://example.org/")].

(** A service with two subscribers, and updates that follow. *)
Definition twoListeners : Subscribers.Service :=
  Subscribers.addListener 2%nat (Subscribers.addListener 1%nat
    (Subscribers.construct BlockingService.NoItem None None)).

Definition laterUpdates : list (Subscribers.Op * Z) :=
  [(Subscribers.OpUpdateStepCount 4000, 1700000000000);
   (Subscribers.OpAdd 3%nat, 1700000001000);
   (Subscribers.OpUpdateSettings (onlyEnabled true), 1700000002000)].

Definition updatesWithoutSubscription : list (Subscribers.Op * Z) :=
  [(Subscribers.OpUpdateStepCount 4000, 1700000000000);
   (Subscribers.OpRemove 1%nat, 1700000001000);
   (Subscribers.OpUpdateGymTime 30, 1700000002000)].

(** The constants of a callback created during a session that started at
    1700000000000 with 17 minutes committed. *)
Definition insideSince : LocationTracker.Hooks :=
  LocationTracker.mkHooks (Some fixInside) true [fixInside] true
                          (Some 1700000000000) 17 0.

Definition restarted : LocationTracker.Tracker :=
  LocationTracker.mkTracker insideSince (Some insideSince).

(** A later fix, still away from the gym. *)
Definition fixFarther : LocationTracker.LocationData :=
  LocationTracker.mkLocationData 0.015625%float 0%float 20%float 1700006120000.

(** Two places found on the map, the second without geometry. *)
Definition townGymPlace : Favorites.Place :=
  Favorites.mkPlace (Some "place-1") "Town Gym" "1 Main Street"
                    (Some (51.5%float, 0.25%float)).

Definition unlocatedPlace : Favorites.Place :=
  Favorites.mkPlace None "Somewhere" "" None.

(** A caller's partial settings object carrying a goal object of its
    own, next to a freshly constructed engine. *)
Definition callerGoal : ObjectModel.loc * gmap ObjectModel.loc ObjectModel.cell :=
  ObjectModel.alloc engineStore
    (ObjectModel.Obj (list_to_map
       [("gymName", ObjectModel.VStr "Town Gym");
        ("latitude", ObjectModel.VNum 51.5%float);
        ("longitude", ObjectModel.VNum 0.25%float);
        ("radiusMeters", ObjectModel.VNum 200%float);
        ("requiredMinutes", ObjectModel.VInt 45)])).

Definition callerPartial : ObjectModel.loc * gmap ObjectModel.loc ObjectModel.cell :=
  ObjectModel.alloc callerGoal.2
    (ObjectModel.Obj (list_to_map
       [("locationGoal", ObjectModel.VRef callerGoal.1);
        ("strictMode", ObjectModel.VBool true)])).

End MoreExamples.

(** * Properties *)

(** ** Strings *)

Section StringFacts.
Import JS.

Lemma dropPrefix_Some (p s r : string) :
  dropPrefix p s = Some r <-> s = p ++ r.
Proof.
  revert s. induction p as [|a p IH]; intros s; simpl.
  - split; [intros [= ->] | intros ->]; reflexivity.
  - destruct s as [|b s]; [split; discriminate|].
    destruct (Ascii.eqb_spec a b) as [->|Hne].
    + rewrite IH. split; [intros ->; reflexivity | intros [= ->]; reflexivity].
    + split; [discriminate | intros [= Hab _]; congruence].
Qed.

Lemma startsWith_true (s p : string) :
  startsWith s p = true <-> exists r, s = p ++ r.
Proof.
  unfold startsWith. destruct (dropPrefix p s) as [r|] eqn:E.
  - apply dropPrefix_Some in E. split; [eauto | reflexivity].
  - split; [discriminate|]. intros [r Hr]. apply dropPrefix_Some in Hr. congruence.
Qed.

Lemma includes_unfold (s sub : string) :
  includes s sub =
  if startsWith s sub then true
  else match s with
       | EmptyString => false
       | String _ r => includes r sub
       end.
Proof. destruct s; reflexivity. Qed.

(** [includes] decides containment. *)
Lemma includes_Substring (s sub : string) :
  includes s sub = true <-> Substring sub s.
Proof.
  split.
  - induction s as [|c s IH]; rewrite includes_unfold;
      destruct (startsWith _ sub) eqn:E; try discriminate.
    + intros _. apply startsWith_true in E as [r ->]. now exists "", r.
    + intros _. apply startsWith_true in E as [r ->]. now exists "", r.
    + intros H. destruct (IH H) as (pre & post & ->).
      now exists (String c pre), post.
  - intros (pre & post & ->). induction pre as [|c pre IH].
    + rewrite includes_unfold.
      assert (startsWith ("" ++ sub ++ post) sub = true) as ->; [|reflexivity].
      apply startsWith_true. now exists post.
    + rewrite includes_unfold. simpl.
      destruct (startsWith _ sub); [reflexivity | exact IH].
Qed.

Lemma includes_false (s sub : string) :
  includes s sub = false <-> ~ Substring sub s.
Proof.
  rewrite <- includes_Substring. destruct (includes s sub); split; congruence.
Qed.

(** The anchored replacements remove the literal when it leads the text
    and leave any other text alone. *)
Lemma replacePrefix_spec (lit s : string) :
  (exists r, s = lit ++ r /\ replacePrefix lit s = r) \/
  (startsWith s lit = false /\ replacePrefix lit s = s).
Proof.
  unfold replacePrefix, startsWith. destruct (dropPrefix lit s) as [r|] eqn:E.
  - left. exists r. apply dropPrefix_Some in E. auto.
  - right. auto.
Qed.

Lemma some_exists {A : Type} (f : A -> bool) (xs : list A) :
  some f xs = true <-> exists x, In x xs /\ f x = true.
Proof. apply existsb_exists. Qed.

(** The engine's case mapping and anchored replacements compute the
    normal forms of the specification. *)
Lemma toLowerCaseChar_lowerLetter (c : ascii) :
  toLowerCaseChar c = Spec.lowerLetter c.
Proof. destruct c as [[] [] [] [] [] [] [] []]; reflexivity. Qed.

Lemma toLowerCase_lowercased (s : string) :
  toLowerCase s = Spec.lowercased s.
Proof.
  induction s as [|c s IH]; simpl; [reflexivity|].
  now rewrite toLowerCaseChar_lowerLetter, IH.
Qed.

Lemma substring_whole (s : string) :
  substring 0 (String.length s) s = s.
Proof. induction s as [|c s IH]; simpl; [reflexivity | now rewrite IH]. Qed.

Lemma dropPrefix_prefix (lit s : string) :
  dropPrefix lit s =
  if String.prefix lit s
  then Some (substring (String.length lit) (String.length s - String.length lit) s)
  else None.
Proof.
  revert s. induction lit as [|a lit IH]; intros s.
  - destruct s as [|b s]; simpl; [reflexivity|].
    now rewrite substring_whole.
  - destruct s as [|b s]; simpl; [reflexivity|].
    destruct (ascii_dec a b) as [Heq|Hne]; destruct (Ascii.eqb_spec a b) as [Heq'|Hne'];
      try congruence.
    apply IH.
Qed.

Lemma replacePrefix_withoutLeading (lit s : string) :
  replacePrefix lit s = Spec.withoutLeading lit s.
Proof.
  unfold replacePrefix, Spec.withoutLeading. rewrite dropPrefix_prefix.
  now destruct (String.prefix lit s).
Qed.

Lemma replaceScheme_withoutScheme (s : string) :
  replaceScheme s = Spec.withoutScheme s.
Proof.
  unfold replaceScheme, Spec.withoutScheme, Spec.schemes. simpl List.find.
  rewrite replacePrefix_withoutLeading, dropPrefix_prefix.
  destruct (String.prefix "https://" s) eqn:Hhttps.
  - unfold Spec.withoutLeading. now rewrite Hhttps.
  - destruct (String.prefix "http://" s) eqn:Hhttp; unfold Spec.withoutLeading;
      now rewrite ?Hhttp.
Qed.

End StringFacts.

(** ** The blocking decision *)

Section ShouldBlock.
Import JS BlockingService.

Variable new_URL : string -> completion string.

Lemma allowed_some (s : BlockingSettings) (hostname : string) :
  some (fun domain => includes hostname domain) (allowedDomains s) = true
  <-> allowedHost s hostname.
Proof.
  rewrite some_exists. unfold allowedHost.
  split; intros (d & Hin & H); exists d; split; auto; now apply includes_Substring.
Qed.

Lemma matchesPattern_true (hostname pattern : string) :
  matchesPattern hostname pattern = true <->
  Substring (normalizePattern pattern) (normalizeHostname hostname) \/
  Substring (normalizeHostname hostname) (normalizePattern pattern).
Proof.
  unfold matchesPattern. rewrite orb_true_iff, !includes_Substring. reflexivity.
Qed.

Lemma blocked_some (s : BlockingSettings) (hostname : string) :
  some (matchesPattern hostname) (blockedWebsites s) = true <-> blockedHost s hostname.
Proof.
  rewrite some_exists. unfold blockedHost.
  split; intros (p & Hin & H); exists p; split; auto; now apply matchesPattern_true.
Qed.

(** The decision once the URL has parsed: the gates in the order the
    function applies them. *)
Lemma shouldBlockWebsite_parsed (st : Engine) (url host : string) :
  new_URL url = Return host ->
  shouldBlockWebsite new_URL st url =
  Return (enabled (settings st)
          && negb (goalsAchieved st)
          && negb (some (fun domain => includes (toLowerCase host) domain)
                        (allowedDomains (settings st)))
          && some (matchesPattern (toLowerCase host)) (blockedWebsites (settings st))).
Proof.
  intros Hurl. unfold shouldBlockWebsite. rewrite Hurl. simpl.
  destruct (enabled (settings st)); simpl; [|reflexivity].
  destruct (goalsAchieved st); simpl; [reflexivity|].
  destruct (some _ (allowedDomains _)); reflexivity.
Qed.

Lemma negb_allowed (s : BlockingSettings) (hostname : string) :
  ~ allowedHost s hostname ->
  some (fun domain => includes hostname domain) (allowedDomains s) = false.
Proof.
  intros H. destruct (some _ _) eqn:E; [|reflexivity].
  apply allowed_some in E. contradiction.
Qed.

Lemma updateGoalStatus_flags (st : Engine) :
  (isStepGoalAchieved (updateGoalStatus st) = true <-> stepGoalMet st) /\
  (isGymGoalAchieved (updateGoalStatus st) = true <-> gymGoalMetOr60 st).
Proof.
  unfold stepGoalMet, gymGoalMetOr60. simpl. rewrite !Z.geb_le. lia.
Qed.

Lemma goalsAchieved_updateGoalStatus (st : Engine) :
  goalsAchieved (updateGoalStatus st) = true <-> goalsMetOr60 (updateGoalStatus st).
Proof.
  destruct (updateGoalStatus_flags st) as [Hs Hg].
  unfold goalsAchieved, goalsMetOr60.
  change (settings (updateGoalStatus st)) with (settings st).
  destruct (trackingMode (settings st)); [exact Hs | exact Hg |].
  rewrite andb_true_iff, Hs, Hg. reflexivity.
Qed.

Lemma goalsAchieved_updateStepCount (n : Z) (st : Engine) :
  goalsAchieved (updateStepCount n st) = true <-> goalsMetOr60 (updateStepCount n st).
Proof. apply goalsAchieved_updateGoalStatus. Qed.

Lemma goalsAchieved_updateGymTime (m : Z) (st : Engine) :
  goalsAchieved (updateGymTime m st) = true <-> goalsMetOr60 (updateGymTime m st).
Proof. apply goalsAchieved_updateGoalStatus. Qed.

(** The engine's pattern test is the bidirectional match of the
    specification. *)
Lemma matchesPattern_bidirectional (host pattern : string) :
  matchesPattern (toLowerCase host) pattern = true <->
  Spec.matchesBidirectionally host pattern.
Proof.
  rewrite matchesPattern_true.
  unfold normalizePattern, normalizeHostname, Spec.matchesBidirectionally,
    Spec.normalizedPattern, Spec.normalizedHostname.
  now rewrite !replacePrefix_withoutLeading, replaceScheme_withoutScheme,
    !toLowerCase_lowercased.
Qed.

Lemma blockList_bidirectional (s : BlockingSettings) (host : string) :
  some (matchesPattern (toLowerCase host)) (blockedWebsites s) = true <->
  exists pattern,
    In pattern (blockedWebsites s) /\ Spec.matchesBidirectionally host pattern.
Proof.
  rewrite some_exists.
  split; intros (p & Hin & H); exists p; split; auto; now apply matchesPattern_bidirectional.
Qed.

(** Every progress update leaves the flags current, and so does a
    settings update that supplies neither goal. *)
Lemma flagsCurrent_updateGoalStatus (st : Engine) :
  Spec.flagsCurrent (updateGoalStatus st).
Proof.
  unfold Spec.flagsCurrent. simpl. unfold orZ. rewrite !Z.geb_le.
  destruct (requiredMinutes (locationGoal (settings st)) =? 0); split; split; lia.
Qed.

Lemma flagsCurrent_updateStepCount (n : Z) (st : Engine) :
  Spec.flagsCurrent (updateStepCount n st).
Proof. apply flagsCurrent_updateGoalStatus. Qed.

Lemma flagsCurrent_updateGymTime (m : Z) (st : Engine) :
  Spec.flagsCurrent (updateGymTime m st).
Proof. apply flagsCurrent_updateGoalStatus. Qed.

Lemma flagsCurrent_updateSettings (p : PartialSettings) (st : Engine) :
  p_dailyGoal p = None ->
  p_locationGoal p = None ->
  Spec.flagsCurrent st ->
  Spec.flagsCurrent (updateSettings p st).
Proof.
  intros Hd Hl. unfold Spec.flagsCurrent, updateSettings, forceStrictModeOff,
    clearActivation, fixRadius.
  destruct p as [e [[]|] a m d l ba bw ad bm]; simpl in *; subst; simpl; auto.
Qed.

(** With current flags, goals that the current values leave unmet are
    unmet for the engine's goal test. *)
Lemma flagsCurrent_unmet (st : Engine) :
  Spec.flagsCurrent st -> ~ goalsMet st -> goalsAchieved st = false.
Proof.
  intros [Hs Hg] Hunmet. unfold goalsMet, stepGoalMet, gymGoalMet in Hunmet.
  unfold goalsAchieved.
  destruct (requiredMinutes (locationGoal (settings st)) =? 0) eqn:E.
  - apply Z.eqb_eq in E. rewrite E in Hunmet.
    destruct (trackingMode (settings st)), (isStepGoalAchieved st), (isGymGoalAchieved st);
      try reflexivity; exfalso; apply Hunmet;
      repeat match goal with
             | H : true = true <-> _ |- _ => pose proof (proj1 H eq_refl); clear H
             end; try split; lia.
  - destruct (trackingMode (settings st)), (isStepGoalAchieved st), (isGymGoalAchieved st);
      try reflexivity; exfalso; apply Hunmet;
      repeat match goal with
             | H : true = true <-> _ |- _ => pose proof (proj1 H eq_refl); clear H
             end; try split; lia.
Qed.

End ShouldBlock.

Section ShouldBlockClaims.
Import JS BlockingService.

Variable new_URL : string -> completion string.

(** C1 (amended).  For a URL whose host name matches the block-list and no
    allowed domain, with blocking enabled, [shouldBlockWebsite] returns
    [false] exactly when the achievement flags selected by the tracking
    mode are set (steps: the step flag; location: the gym flag; both: the
    two together).  Every [updateStepCount] and [updateGymTime] call
    recomputes the flags, so that right after such a call the answer is
    [false] exactly when the selected goals are met by the current values:
    [currentSteps >= dailyGoal] for steps, [currentGymTime >=
    requiredMinutes] (or [>= 60] when [requiredMinutes] is 0) for
    location, and both for both. *)
Theorem shouldBlock_goal_gate (st : Engine) (url host : string) :
  new_URL url = Return host ->
  enabled (settings st) = true ->
  blockedHost (settings st) (toLowerCase host) ->
  ~ allowedHost (settings st) (toLowerCase host) ->
  shouldBlockWebsite new_URL st url = Return (negb (goalsAchieved st)) /\
  (forall st', (exists n, st' = updateStepCount n st) \/ (exists m, st' = updateGymTime m st) ->
     (goalsMetOr60 st' -> shouldBlockWebsite new_URL st' url = Return false) /\
     (~ goalsMetOr60 st' -> shouldBlockWebsite new_URL st' url = Return true)).
Proof.
  intros Hurl Hen Hblocked Hallowed.
  assert (Hgate : forall st', settings st' = settings st ->
            shouldBlockWebsite new_URL st' url = Return (negb (goalsAchieved st'))).
  { intros st' Hs. rewrite (shouldBlockWebsite_parsed new_URL st' url host Hurl), Hs, Hen.
    rewrite (negb_allowed _ _ Hallowed).
    apply blocked_some in Hblocked. rewrite Hblocked.
    now destruct (goalsAchieved st'). }
  split; [now apply Hgate|].
  intros st' Hst'.
  assert (Hs : settings st' = settings st) by (destruct Hst' as [[n ->]|[m ->]]; reflexivity).
  assert (Hflags : goalsAchieved st' = true <-> goalsMetOr60 st').
  { destruct Hst' as [[n ->]|[m ->]];
      [apply goalsAchieved_updateStepCount | apply goalsAchieved_updateGymTime]. }
  rewrite (Hgate st' Hs).
  destruct (goalsAchieved st'); simpl; split; intros H; try reflexivity.
  - exfalso. apply H, Hflags. reflexivity.
  - apply Hflags in H. discriminate.
Qed.

(** C2.  Take a URL whose host name matches no allowed domain, with
    blocking enabled and the goals selected by the tracking mode unmet by
    the current values ([currentSteps < dailyGoal], [currentGymTime <
    requiredMinutes], one of the two in the mode both).  When the
    achievement flags are current, as they are right after every progress
    update, [shouldBlockWebsite] returns [true] if and only if some
    pattern of [blockedWebsites] matches bidirectionally: the normalised
    host name (lowercased, leading [www.] stripped) contains the
    normalised pattern (lowercased, scheme and leading [www.] stripped),
    or the normalised pattern contains the normalised host name.  The
    engine decides by the flags, though: whenever they are unset it
    returns [true] exactly on such a match, and when a flag left over from
    before a settings change still says "achieved", it returns [false]
    whatever matches.  The block-list and the host name are ASCII text,
    on which the engine's lowercasing is that of the letters [A] to
    [Z]. *)
Theorem shouldBlock_bidirectional_match (st : Engine) (url host : string) :
  new_URL url = Return host ->
  Spec.asciiText host = true ->
  forallb Spec.asciiText (blockedWebsites (settings st)) = true ->
  enabled (settings st) = true ->
  ~ goalsMet st ->
  ~ allowedHost (settings st) (Spec.lowercased host) ->
  (Spec.flagsCurrent st ->
   (shouldBlockWebsite new_URL st url = Return true <->
    exists pattern,
      In pattern (blockedWebsites (settings st)) /\
      Spec.matchesBidirectionally host pattern)) /\
  (goalsAchieved st = false ->
   (shouldBlockWebsite new_URL st url = Return true <->
    exists pattern,
      In pattern (blockedWebsites (settings st)) /\
      Spec.matchesBidirectionally host pattern)) /\
  (goalsAchieved st = true -> shouldBlockWebsite new_URL st url = Return false) /\
  (shouldBlockWebsite new_URL st url = Return true \/
   shouldBlockWebsite new_URL st url = Return false).
Proof.
  intros Hurl _ _ Hen Hunmet Hallowed.
  rewrite <- toLowerCase_lowercased in Hallowed.
  rewrite (shouldBlockWebsite_parsed new_URL st url host Hurl), Hen.
  rewrite (negb_allowed _ _ Hallowed). simpl.
  assert (Hflags : goalsAchieved st = false ->
            (Return (negb (goalsAchieved st) && true
                     && some (matchesPattern (toLowerCase host))
                             (blockedWebsites (settings st))) = Return true <->
             exists pattern,
               In pattern (blockedWebsites (settings st)) /\
               Spec.matchesBidirectionally host pattern)).
  { intros ->. simpl. rewrite <- blockList_bidirectional.
    split; [intros [= ->]; reflexivity | intros ->; reflexivity]. }
  split; [|split; [|split]].
  - intros Hcur. apply Hflags. now apply flagsCurrent_unmet.
  - exact Hflags.
  - intros ->. reflexivity.
  - destruct (goalsAchieved st); simpl; [auto|].
    destruct (some _ _); auto.
Qed.

(** C3.  When the lower-cased host name of the URL contains an entry of
    [allowedDomains], [shouldBlockWebsite] returns [false] in every engine
    state, whatever the block-list holds. *)
Theorem shouldBlock_allow_list_first (st : Engine) (url host : string) :
  new_URL url = Return host ->
  allowedHost (settings st) (toLowerCase host) ->
  shouldBlockWebsite new_URL st url = Return false.
Proof.
  intros Hurl Hallowed.
  rewrite (shouldBlockWebsite_parsed new_URL st url host Hurl).
  apply allowed_some in Hallowed. rewrite Hallowed. simpl.
  now rewrite andb_false_r.
Qed.

(** C4.  When the URL constructor throws on the input, [shouldBlockWebsite]
    completes normally with [false], in every engine state. *)
Theorem shouldBlock_malformed_url (st : Engine) (url : string) (e : exn) :
  new_URL url = Throw e ->
  shouldBlockWebsite new_URL st url = Return false.
Proof.
  intros Hurl. unfold shouldBlockWebsite. rewrite Hurl. simpl.
  destruct (negb _); [reflexivity|]. destruct (goalsAchieved st); reflexivity.
Qed.

End ShouldBlockClaims.

(** *** The decision on concrete engines *)

Section ShouldBlockExamples.
Import JS BlockingService Examples.

Ltac in_list := vm_compute; tauto.

Ltac contains := apply includes_Substring; vm_compute; reflexivity.

Ltac not_allowed :=
  let d := fresh "d" in
  let Hin := fresh "Hin" in
  let H := fresh "H" in
  intros (d & Hin & H); vm_compute in Hin;
  repeat (destruct Hin as [<- | Hin];
          [apply includes_Substring in H; vm_compute in H; discriminate|]);
  exact Hin.

Lemma shouldBlock_goal_gate_witness :
  shouldBlockWebsite exampleURL blockingOn "https://facebook.com"
    = Return (negb (goalsAchieved blockingOn)) /\
  (forall st',
     (exists n, st' = updateStepCount n blockingOn) \/
     (exists m, st' = updateGymTime m blockingOn) ->
     (goalsMetOr60 st' ->
      shouldBlockWebsite exampleURL st' "https://facebook.com" = Return false) /\
     (~ goalsMetOr60 st' ->
      shouldBlockWebsite exampleURL st' "https://facebook.com" = Return true)).
Proof.
  apply (shouldBlock_goal_gate exampleURL blockingOn "https://facebook.com" "facebook.com").
  - reflexivity.
  - reflexivity.
  - exists "facebook.com". split; [in_list | left; contains].
  - not_allowed.
Defined.

(** C1 as stated fails on the engine.  After 5000 steps are reported and
    the goal is then lowered to 3000, [currentSteps >= dailyGoal] holds
    but the blocked site is still refused; in location mode with zero
    required minutes and 30 gym minutes reported, [currentGymTime >=
    requiredMinutes] holds but the blocked site is still refused. *)
Lemma shouldBlock_goal_values_counterexample :
  (reachable goalLowered /\
   enabled (settings goalLowered) = true /\
   exampleURL "https://facebook.com" = Return "facebook.com" /\
   blockedHost (settings goalLowered) (toLowerCase "facebook.com") /\
   ~ allowedHost (settings goalLowered) (toLowerCase "facebook.com") /\
   goalsMet goalLowered /\
   shouldBlockWebsite exampleURL goalLowered "https://facebook.com" = Return true) /\
  (reachable zeroMinutes /\
   enabled (settings zeroMinutes) = true /\
   blockedHost (settings zeroMinutes) (toLowerCase "facebook.com") /\
   ~ allowedHost (settings zeroMinutes) (toLowerCase "facebook.com") /\
   goalsMet zeroMinutes /\
   shouldBlockWebsite exampleURL zeroMinutes "https://facebook.com" = Return true).
Proof.
  split.
  - split.
    { exists NoItem, None, None,
        [CallUpdateSettings (onlyEnabled true); CallUpdateStepCount 5000;
         CallUpdateSettings (onlyDailyGoal 3000)].
      reflexivity. }
    repeat split; try reflexivity.
    + exists "facebook.com". split; [in_list | left; contains].
    + not_allowed.
    + unfold goalsMet, stepGoalMet. simpl. lia.
  - split.
    { exists NoItem, None, None,
        [CallUpdateSettings
           (mkPartial (Some true) None None (Some location) None
                      (Some (mkLocationGoal "My Gym" 0%float 0%float 150%float 0))
                      None None None None);
         CallUpdateGymTime 30].
      reflexivity. }
    repeat split; try reflexivity.
    + exists "facebook.com". split; [in_list | left; contains].
    + not_allowed.
    + unfold goalsMet, gymGoalMet. simpl. lia.
Qed.

(** C2 on two engines.  With the flags current and a block-list written
    with capitals, schemes and [www.], the mobile site of a listed name is
    refused.  After 10000 steps are reported and the goal is raised to
    20000 the goal is unmet, the listed name matches, and the site is let
    through. *)
Lemma shouldBlock_bidirectional_match_witness :
  (Spec.flagsCurrent loudPatterns /\
   ~ goalsMet loudPatterns /\
   Spec.matchesBidirectionally "m.facebook.com" "HTTPS://WWW.FaceBook.COM" /\
   shouldBlockWebsite exampleURL loudPatterns "https://m.facebook.com/feed" = Return true) /\
  (~ goalsMet goalRaised /\
   Spec.matchesBidirectionally "facebook.com" "facebook.com" /\
   shouldBlockWebsite exampleURL goalRaised "https://facebook.com" = Return false).
Proof.
  assert (Hloud : ~ goalsMet loudPatterns)
    by (unfold goalsMet, stepGoalMet; simpl; lia).
  assert (Hraised : ~ goalsMet goalRaised)
    by (unfold goalsMet, stepGoalMet; simpl; lia).
  assert (Hm1 : Spec.matchesBidirectionally "m.facebook.com" "HTTPS://WWW.FaceBook.COM")
    by (left; contains).
  assert (Hm2 : Spec.matchesBidirectionally "facebook.com" "facebook.com")
    by (left; contains).
  split.
  - destruct (shouldBlock_bidirectional_match exampleURL loudPatterns
                "https://m.facebook.com/feed" "m.facebook.com")
      as (Hcur & _); [reflexivity | reflexivity | reflexivity | reflexivity
                      | exact Hloud | not_allowed |].
    split; [apply flagsCurrent_updateStepCount|].
    split; [exact Hloud|]. split; [exact Hm1|].
    apply (Hcur (flagsCurrent_updateStepCount _ _)).
    exists "HTTPS://WWW.FaceBook.COM". split; [in_list | exact Hm1].
  - destruct (shouldBlock_bidirectional_match exampleURL goalRaised
                "https://facebook.com" "facebook.com")
      as (_ & _ & Hstale & _); [reflexivity | reflexivity | reflexivity | reflexivity
                                | exact Hraised | not_allowed |].
    split; [exact Hraised|]. split; [exact Hm2|].
    apply Hstale. reflexivity.
Defined.

(** The input on which C2 fails.  Nothing is persisted; blocking is
    switched on, 10000 steps are reported against the goal of 10000, and
    the goal is raised to 20000.  Blocking is enabled, the step goal is
    unmet, the host name is on no allow-list and equals a listed name, and
    [shouldBlockWebsite] answers [false]: the step flag is the one computed
    at the report. *)
Lemma shouldBlock_stale_flag_failing_input :
  reachable goalRaised /\
  enabled (settings goalRaised) = true /\
  trackingMode (settings goalRaised) = steps /\
  currentSteps goalRaised = 10000 /\
  dailyGoal (settings goalRaised) = 20000 /\
  ~ goalsMet goalRaised /\
  exampleURL "https://facebook.com" = Return "facebook.com" /\
  ~ allowedHost (settings goalRaised) (Spec.lowercased "facebook.com") /\
  (exists pattern,
     In pattern (blockedWebsites (settings goalRaised)) /\
     Spec.matchesBidirectionally "facebook.com" pattern) /\
  isStepGoalAchieved goalRaised = true /\
  ~ Spec.flagsCurrent goalRaised /\
  shouldBlockWebsite exampleURL goalRaised "https://facebook.com" = Return false.
Proof.
  split.
  { exists NoItem, None, None,
      [CallUpdateSettings (onlyEnabled true); CallUpdateStepCount 10000;
       CallUpdateSettings (onlyDailyGoal 20000)].
    reflexivity. }
  repeat split; try reflexivity.
  - unfold goalsMet, stepGoalMet. simpl. lia.
  - not_allowed.
  - exists "facebook.com". split; [in_list | left; contains].
  - intros [Hs _]. simpl in Hs. pose proof (proj1 Hs eq_refl). lia.
Qed.

Lemma shouldBlock_allow_list_first_witness :
  blockedHost (settings allowedAndBlocked) (toLowerCase "example.com") /\
  enabled (settings allowedAndBlocked) = true /\
  goalsAchieved allowedAndBlocked = false /\
  shouldBlockWebsite exampleURL allowedAndBlocked "https://example.com/" = Return false.
Proof.
  split; [exists "example.com"; split; [in_list | left; contains]|].
  split; [reflexivity|]. split; [reflexivity|].
  apply (shouldBlock_allow_list_first exampleURL allowedAndBlocked
           "https://example.com/" "example.com").
  - reflexivity.
  - exists "example.com". split; [in_list | contains].
Defined.

Lemma shouldBlock_malformed_url_witness :
  enabled (settings blockingOn) = true /\
  goalsAchieved blockingOn = false /\
  shouldBlockWebsite exampleURL blockingOn "not a url" = Return false.
Proof.
  split; [reflexivity|]. split; [reflexivity|].
  apply (shouldBlock_malformed_url exampleURL blockingOn "not a url" TypeError).
  reflexivity.
Defined.

End ShouldBlockExamples.

(** ** Settings: update, read back, and what stays fixed *)

Section Settings.
Import JS BlockingService.



Lemma settings_updateStepCount (n : Z) (st : Engine) :
  settings (updateStepCount n st) = settings st.
Proof. reflexivity. Qed.

Lemma settings_updateGymTime (m : Z) (st : Engine) :
  settings (updateGymTime m st) = settings st.
Proof. reflexivity. Qed.











End Settings.

Section SettingsExamples.
Import JS BlockingService Examples.





End SettingsExamples.

(** ** What [getSettings] shares with the engine *)

Section SharedObjects.
Import ObjectModel.

Lemma alloc_fresh (h : heap) (c : cell) :
  h !! (alloc h c).1 = None /\ (alloc h c).2 = <[(alloc h c).1 := c]> h.
Proof.
  split; [|reflexivity]. simpl.
  apply not_elem_of_dom. apply is_fresh.
Qed.

Lemma getSettings_inv (h : heap) (l r : loc) (h1 : heap) :
  getSettings h l = Some (r, h1) ->
  exists props,
    h !! l = Some (Obj props) /\ h !! r = None /\ h1 = <[r := Obj props]> h.
Proof.
  unfold getSettings. destruct (h !! l) as [[props|elems]|] eqn:E; try discriminate.
  intros [= <- <-]. exists props. split; [reflexivity|]. apply alloc_fresh.
Qed.

(** Writing a cell the settings object cannot reach leaves the engine's
    view as it was. *)
Lemma settingsView_insert_unreachable (h : heap) (l r : loc) (c : cell) :
  closedAt h l -> r <> l -> h !! r = None ->
  settingsView (<[r := c]> h) l = settingsView h l.
Proof.
  intros Hclosed Hne Hfresh. unfold settingsView.
  rewrite lookup_insert_ne by exact Hne.
  destruct (h !! l) as [[props|elems]|] eqn:E; try reflexivity.
  f_equal. f_equal. apply map_eq. intros k. rewrite !lookup_omap.
  destruct (props !! k) as [v|] eqn:Ek; [|reflexivity]. simpl.
  destruct v as [| | | | |l']; try reflexivity. simpl.
  destruct (Hclosed props k l' E Ek) as [c' Hc'].
  rewrite lookup_insert_ne; [reflexivity|]. intros ->. congruence.
Qed.

(** The object graph built for a settings value has no dangling
    reference. *)
Lemma newSettings_closed (s : BlockingService.BlockingSettings) (h : heap) :
  closedAt (newSettings s h).2 (newSettings s h).1.
Proof.
  unfold newSettings.
  repeat match goal with
         | |- context [alloc ?h ?c] =>
             let Hf := fresh "Hf" in
             let He := fresh "He" in
             destruct (alloc_fresh h c) as [Hf He];
             destruct (alloc h c) as [? ?]; simpl in Hf, He; subst
         end.
  simpl. intros props k l' Hl Hk.
  rewrite lookup_insert_eq in Hl. injection Hl as <-.
  repeat (apply lookup_insert_Some in Hk as [[_ Hk]|[_ Hk]];
          [first [ discriminate
                 | destruct (BlockingService.strictModeActivatedAt s); discriminate
                 | injection Hk as <-; rewrite !lookup_insert_is_Some'; auto 10 ]|]).
  rewrite lookup_empty in Hk. discriminate.
Qed.

(** C8 (amended).  [getSettings] returns a new object holding the same
    property values as the engine's settings object, references included.
    Assigning any property of the returned object, a nested object or an
    array as a whole included, leaves the engine's settings as they were.
    (The nested [locationGoal] object and the three arrays are the
    engine's own.) *)
Theorem getSettings_top_level_copy (h : heap) (l r : loc) (h1 : heap) :
  closedAt h l ->
  getSettings h l = Some (r, h1) ->
  r <> l /\
  h !! r = None /\
  (exists props, h !! l = Some (Obj props) /\ h1 !! r = Some (Obj props)) /\
  settingsView h1 l = settingsView h l /\
  (forall k v, settingsView (mutate h1 r (SetProp k v)) l = settingsView h l).
Proof.
  intros Hclosed Hget.
  destruct (getSettings_inv h l r h1 Hget) as (props & Hl & Hr & ->).
  assert (Hne : r <> l) by congruence.
  split; [exact Hne|]. split; [exact Hr|]. split; [|split].
  - exists props. split; [exact Hl|]. apply lookup_insert_eq.
  - now apply settingsView_insert_unreachable.
  - intros k v. simpl. unfold setProp. rewrite lookup_insert_eq, insert_insert_eq.
    now apply settingsView_insert_unreachable.
Qed.

End SharedObjects.

Section SharedObjectsExamples.
Import ObjectModel Examples.

Lemma getSettings_top_level_copy_witness :
  exists r h1,
    getSettings engineStore engineObject = Some (r, h1) /\
    r <> engineObject /\
    settingsView h1 engineObject = settingsView engineStore engineObject /\
    settingsView (mutate h1 r (SetProp "blockedWebsites" VUndefined)) engineObject
      = settingsView engineStore engineObject.
Proof.
  destruct (getSettings engineStore engineObject) as [[r h1]|] eqn:Hget;
    [|vm_compute in Hget; discriminate].
  exists r, h1. split; [reflexivity|].
  destruct (getSettings_top_level_copy engineStore engineObject r h1
              (newSettings_closed BlockingService.defaultSettings ∅) Hget)
    as (Hne & _ & _ & Hview & Hset).
  split; [exact Hne|]. split; [exact Hview|]. apply Hset.
Defined.

(** C8 as stated fails on the engine.  On a freshly constructed engine, a
    caller that pushes a site onto the [blockedWebsites] array of the
    object it got from [getSettings], or assigns [requiredMinutes] in its
    [locationGoal], changes what the engine itself reads. *)
Lemma getSettings_defensive_copy_counterexample :
  exists r h1,
    getSettings engineStore engineObject = Some (r, h1) /\
    readArray h1 engineObject "blockedWebsites"
      = Some (map VStr ["facebook.com"; "twitter.com"; "instagram.com";
                        "youtube.com"; "tiktok.com"]) /\
    readArray (mutate h1 r (Push "blockedWebsites" (VStr "example.org")))
              engineObject "blockedWebsites"
      = Some (map VStr ["facebook.com"; "twitter.com"; "instagram.com";
                        "youtube.com"; "tiktok.com"; "example.org"]) /\
    readNested h1 engineObject "locationGoal" "requiredMinutes" = Some (VInt 60) /\
    readNested (mutate h1 r (SetNested "locationGoal" "requiredMinutes" (VInt 0)))
               engineObject "locationGoal" "requiredMinutes" = Some (VInt 0) /\
    settingsView (mutate h1 r (Push "blockedWebsites" (VStr "example.org"))) engineObject
      <> settingsView h1 engineObject.
Proof.
  eexists _, _. split; [vm_compute; reflexivity|].
  repeat split; try (vm_compute; reflexivity).
  intros E.
  apply (f_equal (fun o => o ≫= (fun v => v.2 !! "blockedWebsites"))) in E.
  vm_compute in E. discriminate.
Qed.

End SharedObjectsExamples.

(** ** Doubles: comparison, [Math.max] and the widening product *)

Section FloatFacts.
Import JS.

Lemma SFcompare_refl (f : spec_float) :
  f <> S754_nan -> SFcompare f f = Some Eq.
Proof.
  destruct f as [s|s| |s m e]; simpl; intros H; try congruence.
  - now destruct s.
  - rewrite Z.compare_refl.
    assert (Pos.compare_cont Eq m m = Eq) as -> by apply Pos.compare_refl.
    now destruct s.
Qed.

Lemma SFcompare_antisym (x y : spec_float) :
  SFcompare y x = option_map CompOpp (SFcompare x y).
Proof.
  destruct x as [sx|sx| |sx mx ex], y as [sy|sy| |sy my ey]; simpl;
    try reflexivity; try (destruct sx; reflexivity); try (destruct sy; reflexivity);
    try (destruct sx, sy; reflexivity).
  rewrite (Z.compare_antisym ex ey).
  assert (Pos.compare_cont Eq my mx = CompOpp (Pos.compare_cont Eq mx my)) as ->.
  { symmetry. apply (Pos.compare_cont_antisym mx my Eq). }
  destruct sx, sy; simpl; try reflexivity; destruct (ex ?= ey); simpl; try reflexivity;
    now rewrite ?CompOpp_involutive.
Qed.

Lemma shr_1_nonneg (mrs : shr_record) : 0 <= shr_m mrs -> 0 <= shr_m (shr_1 mrs).
Proof. destruct mrs as [[|[p|p|]|p] r s]; simpl; lia. Qed.

Lemma iter_shr_1_nonneg (p : positive) :
  forall mrs : shr_record,
    0 <= shr_m mrs -> 0 <= shr_m (SpecFloat.iter_pos shr_1 p mrs).
Proof.
  induction p as [p IH|p IH|]; intros mrs H; simpl.
  - apply IH, IH, shr_1_nonneg, H.
  - apply IH, IH, H.
  - apply shr_1_nonneg, H.
Qed.

Lemma shr_fexp_nonneg (m e : Z) (l : location) :
  0 <= m -> 0 <= shr_m (fst (shr_fexp prec emax m e l)).
Proof.
  intros H. unfold shr_fexp, shr.
  assert (Hm : 0 <= shr_m (shr_record_of_loc m l)) by (destruct l as [|[]]; exact H).
  destruct (_ - e); simpl; auto using iter_shr_1_nonneg.
Qed.

Lemma round_nearest_even_nonneg (m : Z) (l : location) :
  0 <= m -> 0 <= round_nearest_even m l.
Proof. intros H. destruct l as [|[]]; simpl; try destruct (Z.even m); lia. Qed.

Lemma binary_round_aux_not_nan (sx : bool) (mx ex : Z) (lx : location) :
  0 <= mx -> binary_round_aux prec emax sx mx ex lx <> S754_nan.
Proof.
  intros H. unfold binary_round_aux.
  pose proof (shr_fexp_nonneg mx ex lx H) as H1.
  destruct (shr_fexp prec emax mx ex lx) as [mrs' e']. simpl in H1.
  pose proof (shr_fexp_nonneg _ e' loc_Exact
                (round_nearest_even_nonneg _ (loc_of_shr_record mrs') H1)) as H2.
  destruct (shr_fexp prec emax _ e' loc_Exact) as [mrs'' e'']. simpl in H2.
  destruct (shr_m mrs'') as [|m|m]; try discriminate; [|lia].
  destruct (e'' <=? emax - prec); discriminate.
Qed.

Lemma SFmul_not_nan (x y : spec_float) :
  SFcompare (S754_zero false) x = Some Lt \/ SFcompare (S754_zero false) x = Some Eq ->
  (exists m e, y = S754_finite false m e) ->
  SF64mul x y <> S754_nan.
Proof.
  intros Hx (m & e & ->). unfold SF64mul.
  destruct x as [sx|sx| |sx mx ex]; simpl in *; try discriminate.
  - destruct Hx; discriminate.
  - apply binary_round_aux_not_nan. lia.
Qed.

Lemma is_nan_spec (x : float) : PrimFloat.is_nan x = false <-> Prim2SF x <> S754_nan.
Proof.
  unfold PrimFloat.is_nan. rewrite FloatAxioms.eqb_spec. unfold SFeqb. split.
  - intros H E. rewrite E in H. discriminate.
  - intros H. now rewrite (SFcompare_refl _ H).
Qed.

Lemma leb_refl (x : float) : PrimFloat.is_nan x = false -> (x <=? x)%float = true.
Proof.
  intros H. apply is_nan_spec in H. rewrite FloatAxioms.leb_spec. unfold SFleb.
  now rewrite (SFcompare_refl _ H).
Qed.

Lemma ltb_leb (x y : float) : (x <? y)%float = true -> (x <=? y)%float = true.
Proof.
  rewrite FloatAxioms.ltb_spec, FloatAxioms.leb_spec. unfold SFltb, SFleb.
  now destruct (SFcompare _ _) as [[]|].
Qed.

Lemma SFcompare_total (x y : spec_float) :
  x <> S754_nan -> y <> S754_nan -> SFcompare x y <> None.
Proof.
  destruct x as [sx|sx| |sx mx ex], y as [sy|sy| |sy my ey]; simpl; congruence.
Qed.

Lemma not_ltb_leb (x y : float) :
  PrimFloat.is_nan x = false -> PrimFloat.is_nan y = false ->
  (x <? y)%float = false -> (y <? x)%float = false ->
  (x <=? y)%float = true /\ (y <=? x)%float = true.
Proof.
  intros Hx Hy. apply is_nan_spec in Hx, Hy.
  rewrite !FloatAxioms.ltb_spec, !FloatAxioms.leb_spec. unfold SFltb, SFleb.
  rewrite (SFcompare_antisym (Prim2SF x) (Prim2SF y)).
  pose proof (SFcompare_total _ _ Hx Hy) as Ht.
  destruct (SFcompare (Prim2SF x) (Prim2SF y)) as [[]|]; simpl; try congruence; auto.
Qed.

Lemma Math_max_spec (x y : float) :
  PrimFloat.is_nan x = false -> PrimFloat.is_nan y = false ->
  (Math_max x y = x \/ Math_max x y = y) /\
  (x <=? Math_max x y)%float = true /\
  (y <=? Math_max x y)%float = true.
Proof.
  intros Hx Hy. unfold Math_max. rewrite Hx, Hy. simpl.
  destruct (x <? y)%float eqn:Hxy.
  { split; [now right|]. split; [now apply ltb_leb | now apply leb_refl]. }
  destruct (y <? x)%float eqn:Hyx.
  { split; [now left|]. split; [now apply leb_refl | now apply ltb_leb]. }
  destruct (not_ltb_leb x y Hx Hy Hxy Hyx) as [H1 H2].
  destruct (PrimFloat.get_sign x).
  - split; [now right|]. split; [exact H1 | now apply leb_refl].
  - split; [now left|]. split; [now apply leb_refl | exact H2].
Qed.

Lemma nonneg_times_not_nan (a : float) :
  (0 <=? a)%float = true -> PrimFloat.is_nan (a * 1.5)%float = false.
Proof.
  intros H. apply is_nan_spec. rewrite FloatAxioms.mul_spec.
  apply SFmul_not_nan.
  - rewrite FloatAxioms.leb_spec in H. unfold SFleb in H.
    change (Prim2SF 0) with (S754_zero false) in H.
    destruct (SFcompare (S754_zero false) (Prim2SF a)) as [[]|]; try discriminate; auto.
  - eexists _, _. vm_compute. reflexivity.
Qed.

End FloatFacts.

(** ** The gym-session detector *)

Section Detector.
Import JS LocationTracker.

Variable calculateDistance : float -> float -> float -> float -> float.

(** C10.  For a configured radius that is a number and a reported
    accuracy of at least 0, the radius the detector compares the distance
    with is [Math.max(radiusMeters, accuracy * 1.5)]: it is one of the
    two, and at least each of them; in particular it is at least the
    configured radius. *)
Theorem effectiveRadius_at_least_configured (gym : GymLocation) (l : LocationData) :
  PrimFloat.is_nan (radiusMeters gym) = false ->
  (0 <=? accuracy l)%float = true ->
  nowAtGym calculateDistance gym l
    = (calculateDistance (latitude l) (longitude l) (gym_latitude gym) (gym_longitude gym)
       <=? effectiveRadius gym l)%float /\
  effectiveRadius gym l = Math_max (radiusMeters gym) (accuracy l * 1.5)%float /\
  (effectiveRadius gym l = radiusMeters gym \/
   effectiveRadius gym l = (accuracy l * 1.5)%float) /\
  (radiusMeters gym <=? effectiveRadius gym l)%float = true /\
  (accuracy l * 1.5 <=? effectiveRadius gym l)%float = true.
Proof.
  intros Hr Ha. split; [reflexivity|]. split; [reflexivity|].
  apply Math_max_spec; [exact Hr | now apply nonneg_times_not_nan].
Qed.

(** While the callback's constants say "not at the gym, no session", a
    fix commits nothing: whatever the fix, the total the setters leave is
    the total they found, and nothing is stored or reported. *)
Lemma gymCheck_outside_constants (gymLocation : option GymLocation) (env : Hooks)
    (l : LocationData) (now : Z) (h : Hooks) :
  isAtGym env = false ->
  gymSessionStart env = None ->
  totalGymTimeToday (gymCheck calculateDistance gymLocation env l now h).1
    = totalGymTimeToday h /\
  (gymCheck calculateDistance gymLocation env l now h).2 = [].
Proof.
  intros Hat Hstart. unfold gymCheck. rewrite Hat, Hstart.
  destruct gymLocation as [gym|]; [|split; reflexivity].
  destruct (nowAtGym calculateDistance gym l); split; reflexivity.
Qed.

Lemma deliver_from_mount (gymLocation : option GymLocation) (l : LocationData) (now : Z)
    (t : Tracker) :
  watch t = Some (initialHooks true) ->
  watch (deliver calculateDistance gymLocation l now t).1 = Some (initialHooks true) /\
  totalGymTimeToday (hooks (deliver calculateDistance gymLocation l now t).1)
    = totalGymTimeToday (hooks t) /\
  (deliver calculateDistance gymLocation l now t).2 = [LocationUpdate l].
Proof.
  intros Hw. unfold deliver, successCallback. rewrite Hw.
  destruct (gymCheck_outside_constants gymLocation (initialHooks true) l now
              (setLocationHistory (fun prev => sliceLast50 (prev ++ [l])%list)
                 (setCurrentLocation (Some l) (hooks t))) eq_refl eq_refl) as [Htot Heff].
  destruct (gymCheck _ _ _ _ _ _) as [h effs]. simpl in *. subst effs.
  repeat split. exact Htot.
Qed.

(** A watch registered at mount never commits gym time: after any run of
    fixes the total is the one seeded at mount, and the only effects are
    the location updates. *)
Lemma watch_from_mount_total (gymLocation : option GymLocation) (stored : option Z)
    (fixes : list (LocationData * Z)) :
  totalGymTimeToday
    (hooks (deliverAll calculateDistance gymLocation fixes (mount true stored)).1)
    = totalGymTimeToday (hooks (mount true stored)) /\
  (deliverAll calculateDistance gymLocation fixes (mount true stored)).2
    = map (fun f => LocationUpdate f.1) fixes.
Proof.
  assert (Hgen : forall t, watch t = Some (initialHooks true) ->
            totalGymTimeToday (hooks (deliverAll calculateDistance gymLocation fixes t).1)
              = totalGymTimeToday (hooks t) /\
            (deliverAll calculateDistance gymLocation fixes t).2
              = map (fun f => LocationUpdate f.1) fixes).
  { induction fixes as [|[l now] rest IH]; intros t Hw; simpl; [split; reflexivity|].
    destruct (deliver_from_mount gymLocation l now t Hw) as (Hw1 & Htot1 & Heff1).
    destruct (deliver calculateDistance gymLocation l now t) as [t1 e1]. simpl in *.
    destruct (IH t1 Hw1) as [Htot2 Heff2].
    destruct (deliverAll calculateDistance gymLocation rest t1) as [t2 e2]. simpl in *.
    subst. split; [congruence | reflexivity]. }
  apply Hgen. reflexivity.
Qed.

(** What the departure branch computes when the callback's constants do
    say "at the gym since [start]": the total goes up by the whole minutes
    between [start] and the clock reading, and is stored and reported. *)
Lemma gymCheck_departure (gym : GymLocation) (env : Hooks) (l : LocationData)
    (start now : Z) (h : Hooks) :
  isAtGym env = true ->
  gymSessionStart env = Some start ->
  nowAtGym calculateDistance gym l = false ->
  let total := totalGymTimeToday env + (now - start) / 60000 in
  totalGymTimeToday (gymCheck calculateDistance (Some gym) env l now h).1 = total /\
  isAtGym (gymCheck calculateDistance (Some gym) env l now h).1 = false /\
  gymSessionStart (gymCheck calculateDistance (Some gym) env l now h).1 = None /\
  (gymCheck calculateDistance (Some gym) env l now h).2
    = [SetItem now total; GymStatusChange false total].
Proof.
  intros Hat Hstart Hout. unfold gymCheck. rewrite Hat, Hstart, Hout. simpl.
  repeat split.
Qed.

(** C5 (the code against the claim).  The component is mounted with
    tracking enabled; a fix inside the effective radius is delivered at
    [t0] and a fix outside it 42 minutes later.  The arrival is recorded,
    but the departure fix finds the callback's constants unchanged since
    mount and takes no branch: the detector stays inside, the total is not
    increased by 42 (it is what it was at mount), and nothing is stored or
    reported. *)
Theorem departure_after_mount_commits_nothing (gym : GymLocation) (stored : option Z)
    (fin fout : LocationData) (t0 : Z) :
  nowAtGym calculateDistance gym fin = true ->
  nowAtGym calculateDistance gym fout = false ->
  let t := mount true stored in
  let arrived := deliver calculateDistance (Some gym) fin t0 t in
  let departed := deliver calculateDistance (Some gym) fout (t0 + 42 * 60000) arrived.1 in
  isAtGym (hooks arrived.1) = true /\
  gymSessionStart (hooks arrived.1) = Some t0 /\
  totalGymTimeToday (hooks arrived.1) = totalGymTimeToday (hooks t) /\
  totalGymTimeToday (hooks departed.1) = totalGymTimeToday (hooks t) /\
  totalGymTimeToday (hooks departed.1) <> totalGymTimeToday (hooks t) + 42 /\
  isAtGym (hooks departed.1) = true /\
  departed.2 = [LocationUpdate fout].
Proof.
  intros Hin Hout t arrived departed.
  unfold departed, arrived, t, deliver, successCallback, gymCheck, mount. simpl.
  rewrite Hin. simpl. rewrite Hout. simpl.
  destruct stored; simpl; repeat split; lia.
Qed.

End Detector.

Section DetectorExamples.
Import JS LocationTracker Examples.

Lemma effectiveRadius_at_least_configured_witness :
  effectiveRadius originGym fixCoarse = 300%float /\
  nowAtGym flatDistance originGym fixCoarse = true /\
  (radiusMeters originGym <=? effectiveRadius originGym fixCoarse)%float = true.
Proof.
  destruct (effectiveRadius_at_least_configured flatDistance originGym fixCoarse)
    as (Hnow & Hmax & _ & Hge & _).
  - reflexivity.
  - reflexivity.
  - split; [rewrite Hmax; reflexivity|]. split; [rewrite Hnow; reflexivity | exact Hge].
Defined.

Lemma departure_after_mount_commits_nothing_witness :
  floorDiv (1700002520000 - 1700000000000) (1000 * 60) = 42 /\
  gymSessionStart (hooks arrived.1) = Some 1700000000000 /\
  totalGymTimeToday (hooks departed.1) = 17 /\
  isAtGym (hooks departed.1) = true /\
  departed.2 = [LocationUpdate fixOutside].
Proof.
  destruct (departure_after_mount_commits_nothing flatDistance originGym (Some 17)
              fixInside fixOutside 1700000000000)
    as (_ & Hstart & _ & Htot & _ & Hat & Heff).
  - reflexivity.
  - reflexivity.
  - split; [reflexivity|]. split; [exact Hstart|]. split; [exact Htot|].
    split; [exact Hat | exact Heff].
Defined.

(** The departure branch is reached when tracking is switched off and on
    again while inside: the new callback closes over "at the gym since
    [t0]", and the same two fixes then commit the 42 minutes. *)
Example restart_while_inside_commits_42 :
  let arrived := deliver flatDistance (Some originGym) fixInside 1700000000000
                         (mount true (Some 17)) in
  let restarted := toggleTracking (toggleTracking arrived.1) in
  let departed :=
    deliver flatDistance (Some originGym) fixOutside 1700002520000 restarted in
  totalGymTimeToday (hooks departed.1) = 17 + 42 /\
  departed.2 = [SetItem 1700002520000 59; GymStatusChange false 59;
                LocationUpdate fixOutside].
Proof. split; reflexivity. Qed.

End DetectorExamples.

(** ** The engine: status, progress and settings beyond the decision *)

Section EngineStatus.
Import JS BlockingService.

Variable new_URL : string -> completion string.

(** [shouldBlockWebsite] always completes normally. *)
Lemma shouldBlockWebsite_returns (st : Engine) (url : string) :
  exists b, shouldBlockWebsite new_URL st url = Return b.
Proof.
  unfold shouldBlockWebsite.
  destruct (negb _); [eauto|]. destruct (goalsAchieved st); [eauto|].
  destruct (new_URL url) as [h|e]; simpl; [|eauto].
  destruct (some _ (allowedDomains _)); eauto.
Qed.

(** X1.  Whenever the status reports [isBlocked = false] (blocking is
    switched off, or the goals of the tracking mode are flagged as
    achieved), [shouldBlockWebsite] answers [false] for every input,
    block-listed hosts and unparseable text included. *)
Theorem unblocked_status_blocks_nothing (st : Engine) (now : Z) (url : string) :
  isBlocked (getBlockingStatus now st) = false ->
  shouldBlockWebsite new_URL st url = Return false.
Proof.
  unfold getBlockingStatus, shouldBlockWebsite. simpl.
  destruct (enabled (settings st)); simpl; [|reflexivity].
  destruct (goalsAchieved st); simpl; [reflexivity | discriminate].
Qed.

(** X2.  The amounts in the status are never negative; the remaining
    steps are 0 exactly when the current steps have reached the goal, and
    otherwise they are the difference to the goal; likewise for gym
    minutes against [goalGymTime], which is the configured minutes or 60
    and is therefore never 0. *)
Theorem status_remaining_amounts (now : Z) (st : Engine) :
  let s := getBlockingStatus now st in
  0 <= remainingSteps s /\
  (remainingSteps s = 0 <-> currentSteps st >= dailyGoal (settings st)) /\
  (currentSteps st < dailyGoal (settings st) ->
   currentSteps st + remainingSteps s = dailyGoal (settings st)) /\
  goalGymTime s <> 0 /\
  0 <= remainingGymTime s /\
  (remainingGymTime s = 0 <-> currentGymTime st >= goalGymTime s) /\
  (currentGymTime st < goalGymTime s ->
   currentGymTime st + remainingGymTime s = goalGymTime s).
Proof.
  simpl. unfold orZ.
  destruct (Z.eqb_spec (requiredMinutes (locationGoal (settings st))) 0); lia.
Qed.

(** X3.  Right after a progress update the status follows the current
    values: the two achievement flags are the comparisons with the goals,
    [isBlocked] holds exactly when blocking is enabled and the goals of
    the mode are unmet, and in the mode [both] the reason is chosen by
    which of the two goals is unmet. *)
Theorem status_after_progress_update (now : Z) (st st' : Engine) :
  (exists n, st' = updateStepCount n st) \/ (exists m, st' = updateGymTime m st) ->
  let s := getBlockingStatus now st' in
  (stepGoalAchieved s = true <-> stepGoalMet st') /\
  (gymGoalAchieved s = true <-> gymGoalMetOr60 st') /\
  (isBlocked s = true <-> enabled (settings st') = true /\ ~ goalsMetOr60 st') /\
  (trackingMode (settings st') = both ->
   (stepGoalMet st' /\ gymGoalMetOr60 st' -> reason s = "Both goals achieved") /\
   (~ stepGoalMet st' /\ ~ gymGoalMetOr60 st' ->
    reason s = "Both step and gym goals not reached") /\
   (~ stepGoalMet st' /\ gymGoalMetOr60 st' -> reason s = "Step goal not reached") /\
   (stepGoalMet st' /\ ~ gymGoalMetOr60 st' -> reason s = "Gym goal not reached")).
Proof.
  intros Hst'.
  assert (Hflags : (isStepGoalAchieved st' = true <-> stepGoalMet st') /\
                   (isGymGoalAchieved st' = true <-> gymGoalMetOr60 st')).
  { destruct Hst' as [[n ->]|[m ->]]; unfold stepGoalMet, gymGoalMetOr60; simpl;
      rewrite !Z.geb_le; lia. }
  assert (Hall : goalsAchieved st' = true <-> goalsMetOr60 st').
  { destruct Hst' as [[n ->]|[m ->]];
      [apply goalsAchieved_updateStepCount | apply goalsAchieved_updateGymTime]. }
  destruct Hflags as [Hs Hg]. simpl.
  split; [exact Hs|]. split; [exact Hg|]. split.
  - rewrite andb_true_iff, negb_true_iff, <- Hall.
    destruct (goalsAchieved st'); intuition congruence.
  - intros Hmode. unfold statusReason. rewrite Hmode.
    destruct (isStepGoalAchieved st'), (isGymGoalAchieved st'); simpl;
      repeat split; intros [H1 H2]; try reflexivity; exfalso;
      intuition congruence.
Qed.

End EngineStatus.

Section EngineAlgebra.
Import JS BlockingService.

Lemma pick_pick {A : Type} (o : option A) (x : A) : pick o (pick o x) = pick o x.
Proof. now destruct o. Qed.

(** X4.  Progress reports overwrite: of two step reports only the later
    one counts, likewise for gym minutes, and a step report and a gym
    report can be made in either order. *)
Theorem progress_updates_overwrite_and_commute (n n' m m' : Z) (st : Engine) :
  updateStepCount n' (updateStepCount n st) = updateStepCount n' st /\
  updateGymTime m' (updateGymTime m st) = updateGymTime m' st /\
  updateStepCount n (updateGymTime m st) = updateGymTime m (updateStepCount n st).
Proof. repeat split. Qed.

(** X5.  [updateSettings] is idempotent: applying the same partial
    settings a second time changes nothing. *)
Theorem updateSettings_idempotent (p : PartialSettings) (st : Engine) :
  updateSettings p (updateSettings p st) = updateSettings p st.
Proof.
  unfold updateSettings. simpl. f_equal.
  destruct p as [e [[]|] a t d [g|] ba bw ad bm]; unfold spread; simpl;
    now rewrite !pick_pick.
Qed.

(** X6.  [updateSettings] never recomputes the achievement flags: after
    [n] steps were reported, a new [dailyGoal] leaves the step flag at the
    comparison with the old goal, and only the next progress report
    compares with the new one. *)
Theorem goal_change_waits_for_progress_report (n g : Z) (p : PartialSettings)
    (st : Engine) :
  p_dailyGoal p = Some g ->
  let reported := updateStepCount n st in
  let changed := updateSettings p reported in
  dailyGoal (settings changed) = g /\
  currentSteps changed = n /\
  isStepGoalAchieved changed = (n >=? dailyGoal (settings st)) /\
  isGymGoalAchieved changed = isGymGoalAchieved reported /\
  isStepGoalAchieved (updateStepCount n changed) = (n >=? g).
Proof.
  intros Hp. destruct p as [e [[]|] a t d [gl|] ba bw ad bm]; simpl in *; subst;
    repeat split.
Qed.

(** X7.  Restarting on what [saveSettings] wrote.  For coordinates and
    radius that are finite numbers, the reloaded settings agree with the
    saved ones on every field except these: [strictMode] comes back
    [false] and [strictModeActivatedAt] undefined; an empty gym name
    comes back as "My Gym"; a zero latitude or longitude as 0, a zero
    radius as 150 and zero required minutes as 60. *)
Theorem reload_of_saved_settings (st : Engine) :
  let s := settings st in
  let s' := loadSettings (saveSettings st) in
  PrimFloat.is_finite (latitude (locationGoal s)) = true ->
  PrimFloat.is_finite (longitude (locationGoal s)) = true ->
  PrimFloat.is_finite (radiusMeters (locationGoal s)) = true ->
  enabled s' = enabled s /\
  trackingMode s' = trackingMode s /\
  dailyGoal s' = dailyGoal s /\
  blockedApps s' = blockedApps s /\
  blockedWebsites s' = blockedWebsites s /\
  allowedDomains s' = allowedDomains s /\
  blockingMessage s' = blockingMessage s /\
  strictMode s' = false /\
  strictModeActivatedAt s' = None /\
  gymName (locationGoal s') =
    (if String.eqb (gymName (locationGoal s)) "" then "My Gym"
     else gymName (locationGoal s)) /\
  latitude (locationGoal s') =
    (if PrimFloat.is_zero (latitude (locationGoal s)) then 0%float
     else latitude (locationGoal s)) /\
  longitude (locationGoal s') =
    (if PrimFloat.is_zero (longitude (locationGoal s)) then 0%float
     else longitude (locationGoal s)) /\
  radiusMeters (locationGoal s') =
    (if PrimFloat.is_zero (radiusMeters (locationGoal s)) then 150%float
     else radiusMeters (locationGoal s)) /\
  requiredMinutes (locationGoal s') =
    (if requiredMinutes (locationGoal s) =? 0 then 60
     else requiredMinutes (locationGoal s)).
Proof.
  intros s s' Hlat Hlng Hrad. subst s s'. simpl.
  repeat (split; [reflexivity|]).
  assert (Hnum : forall x d : float, PrimFloat.is_finite x = true ->
            (if truthy x then x else d) = if PrimFloat.is_zero x then d else x).
  { intros x d Hx. unfold truthy.
    unfold PrimFloat.is_finite in Hx. apply negb_true_iff, orb_false_iff in Hx as [Hnan _].
    rewrite Hnan, orb_false_r. now destruct (PrimFloat.is_zero x). }
  rewrite !Hnum by assumption.
  split; [now destruct (gymName (locationGoal (settings st)))|].
  repeat split.
Qed.

End EngineAlgebra.

(** ** Subscribers *)

Section SubscriberFacts.
Import BlockingService Subscribers.

Lemma In_setAdd (cb x : Listener) (ls : list Listener) :
  In x (setAdd cb ls) <-> x = cb \/ In x ls.
Proof.
  unfold setAdd. destruct (existsb (Nat.eqb cb) ls) eqn:E.
  - apply existsb_exists in E as (y & Hy & Heq). apply Nat.eqb_eq in Heq. subst y.
    split; [auto | intros [->|H]; auto].
  - rewrite in_app_iff. simpl. intuition.
Qed.

Lemma In_setDelete (cb x : Listener) (ls : list Listener) :
  In x (setDelete cb ls) <-> x <> cb /\ In x ls.
Proof.
  unfold setDelete. rewrite filter_In, negb_true_iff, Nat.eqb_neq. intuition.
Qed.

Lemma NoDup_setAdd (cb : Listener) (ls : list Listener) :
  List.NoDup ls -> List.NoDup (setAdd cb ls).
Proof.
  intros H. unfold setAdd. destruct (existsb (Nat.eqb cb) ls) eqn:E; [exact H|].
  apply List.NoDup_app; [exact H | repeat constructor; intros [] |].
  intros x Hx [Hcb|[]]. subst x.
  assert (existsb (Nat.eqb cb) ls = true); [|congruence].
  apply existsb_exists. exists cb. split; [exact Hx | apply Nat.eqb_refl].
Qed.

Lemma NoDup_setDelete (cb : Listener) (ls : list Listener) :
  List.NoDup ls -> List.NoDup (setDelete cb ls).
Proof. apply List.NoDup_filter. Qed.

Lemma step_listeners_NoDup (now : Z) (op : Op) (s : Service) :
  List.NoDup (listeners s) -> List.NoDup (listeners (step now op s).1).
Proof.
  intros H. destruct op; simpl; auto using NoDup_setAdd, NoDup_setDelete.
  constructor.
Qed.

Lemma steps_listeners_NoDup (ops : list (Op * Z)) :
  forall s, List.NoDup (listeners s) -> List.NoDup (listeners (steps ops s).1).
Proof.
  induction ops as [|[op now] rest IH]; intros s H; simpl; [exact H|].
  pose proof (step_listeners_NoDup now op s H) as H1.
  destruct (step now op s) as [s1 d1]. simpl in H1.
  specialize (IH s1 H1). destruct (steps rest s1) as [s2 d2]. exact IH.
Qed.

Lemma notifyListeners_fst (now : Z) (s : Service) :
  map fst (notifyListeners now s) = listeners s.
Proof.
  unfold notifyListeners. rewrite map_map. simpl. apply map_id.
Qed.

End SubscriberFacts.

Section SubscriberProperties.
Import BlockingService Subscribers.

Lemma step_without_listener (cb : Listener) (now : Z) (op : Op) (s : Service) :
  op <> OpAdd cb ->
  ~ In cb (listeners s) ->
  ~ In cb (listeners (step now op s).1) /\ ~ In cb (map fst (step now op s).2).
Proof.
  intros Hop Hs.
  destruct op as [cb'|cb'|p|n|m|]; simpl;
    rewrite ?notifyListeners_fst; simpl; auto.
  - rewrite In_setAdd. split; [|tauto]. intros [->|H]; [congruence | tauto].
  - rewrite In_setDelete. tauto.
Qed.

Lemma steps_without_listener (cb : Listener) (ops : list (Op * Z)) :
  Forall (fun o => o.1 <> OpAdd cb) ops ->
  forall s, ~ In cb (listeners s) -> ~ In cb (map fst (steps ops s).2).
Proof.
  induction 1 as [|[op now] rest Hop Hrest IH]; intros s Hs; simpl; [tauto|].
  destruct (step_without_listener cb now op s Hop Hs) as [Hs1 Hd1].
  destruct (step now op s) as [s1 d1]. simpl in *.
  specialize (IH s1 Hs1). destruct (steps rest s1) as [s2 d2]. simpl in *.
  rewrite map_app, in_app_iff. tauto.
Qed.

Lemma filter_not_in (cb : Listener) (ls : list Listener) :
  ~ In cb ls -> List.filter (fun x => negb (Nat.eqb cb x)) ls = ls.
Proof.
  induction ls as [|x ls IH]; simpl; [reflexivity|]. intros H.
  destruct (Nat.eqb_spec cb x) as [->|Hne]; simpl; [tauto|].
  rewrite IH; tauto.
Qed.

(** X8.  In a service driven through any sequence of operations from its
    construction, each update (of settings, steps or gym minutes)
    notifies every listener registered at that moment exactly once, in
    the order of registration, and all of them receive the status of the
    engine after the update.  Subscribing, unsubscribing and [destroy]
    notify nobody. *)
Theorem every_listener_notified_once (saved : SavedItem) (ss sg : option Z)
    (ops : list (Op * Z)) (now : Z) (op : Op) :
  let s := (steps ops (Subscribers.construct saved ss sg)).1 in
  let s' := (step now op s).1 in
  let ds := (step now op s).2 in
  List.NoDup (listeners s') /\
  match op with
  | OpUpdateSettings _ | OpUpdateStepCount _ | OpUpdateGymTime _ =>
      map fst ds = listeners s' /\
      Forall (fun d => d.2 = getBlockingStatus now (engine s')) ds
  | OpAdd _ | OpRemove _ | OpDestroy => ds = []
  end.
Proof.
  intros s s' ds. subst s' ds.
  assert (Hnd : List.NoDup (listeners s)).
  { apply steps_listeners_NoDup. constructor. }
  split; [now apply step_listeners_NoDup|].
  destruct op; simpl; try reflexivity;
    (split; [rewrite notifyListeners_fst; reflexivity|]);
    unfold notifyListeners; apply List.Forall_forall; intros d Hd;
    apply in_map_iff in Hd as (cb & <- & _); reflexivity.
Qed.

(** X9.  No delivery once unsubscribed: after [removeListener cb], no
    later operation notifies [cb], as long as [cb] is not subscribed
    again. *)
Theorem removed_listener_not_notified (cb : Listener) (s : Service)
    (ops : list (Op * Z)) :
  Forall (fun o => o.1 <> OpAdd cb) ops ->
  ~ In cb (map fst (steps ops (removeListener cb s)).2).
Proof.
  intros Hops. apply steps_without_listener; [exact Hops|].
  simpl. rewrite In_setDelete. tauto.
Qed.

(** X10.  Subscribing is idempotent: a callback that is already
    registered keeps its place and is not registered twice.
    Unsubscribing a callback that was not registered before its
    subscription restores the listeners as they were. *)
Theorem subscribe_twice_unsubscribe_once (cb : Listener) (s : Service) :
  addListener cb (addListener cb s) = addListener cb s /\
  (In cb (listeners s) -> listeners (addListener cb s) = listeners s) /\
  (~ In cb (listeners s) ->
   listeners (removeListener cb (addListener cb s)) = listeners s).
Proof.
  split; [|split].
  - unfold addListener. simpl. f_equal.
    unfold setAdd at 1.
    assert (existsb (Nat.eqb cb) (setAdd cb (listeners s)) = true) as ->; [|reflexivity].
    apply existsb_exists. exists cb. split; [apply In_setAdd; auto | apply Nat.eqb_refl].
  - intros Hin. simpl. unfold setAdd.
    assert (existsb (Nat.eqb cb) (listeners s) = true) as ->; [|reflexivity].
    apply existsb_exists. exists cb. split; [exact Hin | apply Nat.eqb_refl].
  - intros Hnin. simpl. unfold setAdd, setDelete.
    destruct (existsb (Nat.eqb cb) (listeners s)) eqn:E.
    + apply existsb_exists in E as (y & Hy & Heq). apply Nat.eqb_eq in Heq. subst y. tauto.
    + rewrite List.filter_app. simpl. rewrite Nat.eqb_refl. simpl.
      rewrite app_nil_r. now apply filter_not_in.
Qed.

(** X11.  After [destroy] nobody is notified any more: whatever updates
    follow, no delivery is made until a listener subscribes again. *)
Theorem destroy_silences_the_service (s : Service) (ops : list (Op * Z)) :
  Forall (fun o => forall cb, o.1 <> OpAdd cb) ops ->
  (steps ops (destroy s)).2 = [].
Proof.
  intros Hops.
  assert (Hno : forall cb, ~ In cb (map fst (steps ops (destroy s)).2)).
  { intros cb. apply steps_without_listener; [|simpl; tauto].
    eapply List.Forall_impl; [|exact Hops]. intros o Ho. apply Ho. }
  destruct (steps ops (destroy s)).2 as [|[cb st] ds]; [reflexivity|].
  exfalso. apply (Hno cb). simpl. auto.
Qed.

End SubscriberProperties.

(** ** The first revision of the engine *)

Section FirstRevision.
Import JS.

Variable new_URL : string -> completion string.

(** X12.  The strict-mode guard of the first revision compares the
    supplied [enabled] with [false] and nothing else.  While strict mode
    is on, a call that supplies [enabled: false] is dropped as a whole and
    every other call is merged.  Blocking that is on therefore stays on
    after one call unless the call supplies [enabled] as [undefined]: that
    is stored, and every URL is then let through.  A call that takes
    strict mode away (with [false] or [undefined], and without
    [enabled: false]) is merged too, and the next call can then disable
    blocking. *)
Theorem strict_mode_guard_compares_with_false (p : BlockingServiceV1.PartialSettings)
    (st : BlockingServiceV1.Engine) :
  BlockingServiceV1.strictMode (BlockingServiceV1.settings st) = Some true ->
  (BlockingServiceV1.p_enabled p = Some (Some false) ->
   BlockingServiceV1.updateSettings p st = st) /\
  (BlockingServiceV1.p_enabled p <> Some (Some false) ->
   BlockingServiceV1.settings (BlockingServiceV1.updateSettings p st)
   = BlockingServiceV1.spread (BlockingServiceV1.settings st) p) /\
  (BlockingServiceV1.enabled (BlockingServiceV1.settings st) = Some true ->
   BlockingServiceV1.enabled
     (BlockingServiceV1.settings (BlockingServiceV1.updateSettings p st))
   = match BlockingServiceV1.p_enabled p with
     | Some None => None
     | _ => Some true
     end) /\
  (BlockingServiceV1.p_enabled p = Some None ->
   forall url,
     BlockingServiceV1.shouldBlockWebsite new_URL
       (BlockingServiceV1.updateSettings p st) url = Return false) /\
  (BlockingServiceV1.p_strictMode p = Some (Some false) \/
   BlockingServiceV1.p_strictMode p = Some None ->
   BlockingServiceV1.p_enabled p <> Some (Some false) ->
   forall q,
     BlockingServiceV1.p_enabled q = Some (Some false) ->
     BlockingServiceV1.enabled
       (BlockingServiceV1.settings
          (BlockingServiceV1.updateSettings q (BlockingServiceV1.updateSettings p st)))
     = Some false).
Proof.
  intros Hstrict.
  assert (Hmerge : BlockingServiceV1.p_enabled p <> Some (Some false) ->
            BlockingServiceV1.updateSettings p st
            = BlockingServiceV1.mkEngine
                (BlockingServiceV1.spread (BlockingServiceV1.settings st) p)
                (BlockingServiceV1.currentSteps st) (BlockingServiceV1.isGoalAchieved st)).
  { intros Hp. unfold BlockingServiceV1.updateSettings, BlockingServiceV1.disables.
    destruct (BlockingServiceV1.p_enabled p) as [[[]|]|]; try congruence;
      now rewrite andb_false_r. }
  assert (Hdrop : BlockingServiceV1.p_enabled p = Some (Some false) ->
            BlockingServiceV1.updateSettings p st = st).
  { intros Hp. unfold BlockingServiceV1.updateSettings, BlockingServiceV1.disables.
    now rewrite Hstrict, Hp. }
  split; [exact Hdrop|].
  split; [intros Hp; now rewrite Hmerge|].
  split; [|split].
  - intros Hon.
    destruct (BlockingServiceV1.p_enabled p) as [[[]|]|] eqn:Hp;
      try (rewrite Hmerge by congruence; simpl; rewrite Hp; simpl; congruence).
    now rewrite Hdrop.
  - intros Hp url. rewrite Hmerge by congruence.
    unfold BlockingServiceV1.shouldBlockWebsite. simpl. now rewrite Hp.
  - intros Hoff Hp q Hq. rewrite Hmerge by exact Hp.
    unfold BlockingServiceV1.updateSettings, BlockingServiceV1.disables. simpl.
    destruct Hoff as [-> | ->]; simpl; now rewrite Hq.
Qed.

(** X13.  In the mode [steps] the later engine decides as the first
    revision does: read as a first-revision state, it gives the same
    answer for every URL and the same [isBlocked] and remaining steps,
    and a step report on either side leads to corresponding states. *)
Theorem later_engine_agrees_in_steps_mode (st : BlockingService.Engine)
    (url : string) (n now : Z) :
  BlockingService.trackingMode (BlockingService.settings st) = BlockingService.steps ->
  BlockingServiceV1.shouldBlockWebsite new_URL (BlockingServiceV1.ofLater st) url
    = BlockingService.shouldBlockWebsite new_URL st url /\
  BlockingServiceV1.ofLater (BlockingService.updateStepCount n st)
    = BlockingServiceV1.updateStepCount n (BlockingServiceV1.ofLater st) /\
  BlockingServiceV1.isBlocked
    (BlockingServiceV1.getBlockingStatus (BlockingServiceV1.ofLater st))
    = Some (BlockingService.isBlocked (BlockingService.getBlockingStatus now st)) /\
  BlockingServiceV1.remainingSteps
    (BlockingServiceV1.getBlockingStatus (BlockingServiceV1.ofLater st))
    = Some (BlockingService.remainingSteps (BlockingService.getBlockingStatus now st)).
Proof.
  intros Hmode.
  unfold BlockingServiceV1.shouldBlockWebsite, BlockingService.shouldBlockWebsite,
    BlockingService.goalsAchieved, BlockingService.getBlockingStatus.
  simpl. unfold BlockingService.goalsAchieved. rewrite Hmode.
  repeat split; try reflexivity;
    destruct (BlockingService.enabled (BlockingService.settings st)),
      (BlockingService.isStepGoalAchieved st); reflexivity.
Qed.

End FirstRevision.

(** ** The detector's runs, and what reaches the engine *)

Section DetectorRuns.
Import JS LocationTracker.

Variable calculateDistance : float -> float -> float -> float -> float.

Lemma sliceLast50_length {A : Type} (xs : list A) :
  (length (sliceLast50 xs) <= 50)%nat.
Proof. unfold sliceLast50. rewrite length_skipn. lia. Qed.

Lemma sliceLast50_short {A : Type} (xs : list A) :
  (length xs <= 50)%nat -> sliceLast50 xs = xs.
Proof.
  intros H. unfold sliceLast50.
  replace (length xs - 50)%nat with 0%nat by lia. reflexivity.
Qed.

(** Keeping the last 50 after each addition keeps the last 50 overall. *)
Lemma sliceLast50_snoc {A : Type} (xs : list A) (x : A) :
  sliceLast50 (sliceLast50 xs ++ [x])%list = sliceLast50 (xs ++ [x])%list.
Proof.
  unfold sliceLast50. rewrite !length_app, length_skipn. simpl.
  destruct (Nat.le_gt_cases (length xs) 50) as [Hle|Hgt].
  - replace (length xs - 50)%nat with 0%nat by lia. simpl.
    replace (length xs - 0 + 1 - 50)%nat with (length xs + 1 - 50)%nat by lia.
    reflexivity.
  - replace (length xs - (length xs - 50) + 1 - 50)%nat with 1%nat by lia.
    replace (length xs + 1 - 50)%nat with (S (length xs - 50)) by lia.
    rewrite (skipn_app (S (length xs - 50)) xs [x]).
    replace (S (length xs - 50) - length xs)%nat with 0%nat by lia. simpl.
    rewrite (skipn_app 1 (skipn (length xs - 50) xs) [x]).
    rewrite length_skipn.
    replace (1 - (length xs - (length xs - 50)))%nat with 0%nat by lia. simpl.
    f_equal. rewrite skipn_skipn. reflexivity.
Qed.

Lemma sliceLast50_app {A : Type} (xs ys : list A) :
  sliceLast50 (sliceLast50 xs ++ ys)%list = sliceLast50 (xs ++ ys)%list.
Proof.
  induction ys as [|y ys IH] using rev_ind.
  - rewrite !app_nil_r. apply sliceLast50_short, sliceLast50_length.
  - rewrite !app_assoc.
    rewrite <- (sliceLast50_snoc (sliceLast50 xs ++ ys)%list y).
    rewrite <- (sliceLast50_snoc (xs ++ ys)%list y).
    now rewrite IH.
Qed.

Lemma deliver_history (gymLocation : option GymLocation) (l : LocationData) (now : Z)
    (t : Tracker) (env : Hooks) :
  watch t = Some env ->
  locationHistory (hooks (deliver calculateDistance gymLocation l now t).1)
    = sliceLast50 (locationHistory (hooks t) ++ [l])%list /\
  watch (deliver calculateDistance gymLocation l now t).1 = Some env.
Proof.
  intros Hw. unfold deliver, successCallback. rewrite Hw.
  set (h1 := setLocationHistory _ _).
  assert (H1 : locationHistory h1 = sliceLast50 (locationHistory (hooks t) ++ [l])%list)
    by reflexivity.
  assert (Hkeep : locationHistory (gymCheck calculateDistance gymLocation env l now h1).1
                  = locationHistory h1).
  { unfold gymCheck. destruct gymLocation as [gym|]; [|reflexivity].
    destruct (nowAtGym calculateDistance gym l), (isAtGym env); simpl;
      destruct (gymSessionStart env); reflexivity. }
  destruct (gymCheck calculateDistance gymLocation env l now h1) as [h effs].
  simpl in *. split; [congruence | reflexivity].
Qed.

(** X14.  The location history is the last 50 fixes: after any run of
    fixes delivered to a registered callback, the history holds the
    fixes received so far, oldest first, cut to the most recent 50. *)
Theorem history_is_last_50_fixes (gymLocation : option GymLocation) (env : Hooks)
    (fixes : list (LocationData * Z)) (t : Tracker) :
  watch t = Some env ->
  (length (locationHistory (hooks t)) <= 50)%nat ->
  let t' := (deliverAll calculateDistance gymLocation fixes t).1 in
  locationHistory (hooks t')
    = sliceLast50 (locationHistory (hooks t) ++ map fst fixes)%list /\
  (length (locationHistory (hooks t')) <= 50)%nat.
Proof.
  intros Hw Hlen t'. subst t'.
  assert (Hgen : forall t,
            watch t = Some env ->
            (length (locationHistory (hooks t)) <= 50)%nat ->
            locationHistory (hooks (deliverAll calculateDistance gymLocation fixes t).1)
              = sliceLast50 (locationHistory (hooks t) ++ map fst fixes)%list).
  { clear t Hw Hlen.
    induction fixes as [|[l now] rest IH]; intros t Hw Hlen; simpl.
    - rewrite app_nil_r. symmetry. now apply sliceLast50_short.
    - destruct (deliver_history gymLocation l now t env Hw) as [Hh Hw1].
      destruct (deliver calculateDistance gymLocation l now t) as [t1 e1]. simpl in *.
      assert (Hlen1 : (length (locationHistory (hooks t1)) <= 50)%nat)
        by (rewrite Hh; apply sliceLast50_length).
      specialize (IH t1 Hw1 Hlen1).
      destruct (deliverAll calculateDistance gymLocation rest t1) as [t2 e2]. simpl in *.
      rewrite IH, Hh, sliceLast50_app, <- app_assoc. reflexivity. }
  rewrite (Hgen t Hw Hlen). split; [reflexivity | apply sliceLast50_length].
Qed.

End DetectorRuns.

Section DetectorToEngine.
Import JS LocationTracker.

Variable calculateDistance : float -> float -> float -> float -> float.

Lemma handleAll_location_updates (fixes : list (LocationData * Z))
    (st : BlockingService.Engine) :
  Dashboard.handleAll (map (fun f => LocationUpdate f.1) fixes) st = (st, []).
Proof.
  induction fixes as [|f rest IH]; simpl; [reflexivity|]. now rewrite IH.
Qed.

(** X15.  A component mounted with tracking enabled never commits gym
    time, whatever fixes follow: today's total stays the value seeded at
    mount, the only effects are the location updates, and the dashboard's
    handler leaves the engine untouched and writes nothing. *)
Theorem mounted_watch_never_reports_gym_time (gymLocation : option GymLocation)
    (stored : option Z) (fixes : list (LocationData * Z)) (st : BlockingService.Engine) :
  let run := deliverAll calculateDistance gymLocation fixes (mount true stored) in
  totalGymTimeToday (hooks run.1) = match stored with Some v => v | None => 0 end /\
  run.2 = map (fun f => LocationUpdate f.1) fixes /\
  Dashboard.handleAll run.2 st = (st, []).
Proof.
  intros run. subst run.
  destruct (watch_from_mount_total calculateDistance gymLocation stored fixes)
    as [Htot Heff].
  rewrite Heff, Htot. split; [now destruct stored|]. split; [reflexivity|].
  apply handleAll_location_updates.
Qed.

(** X16.  During a session (the callback's constants say "at the gym
    since [start]"), a fix inside the radius reports the live total, the
    committed total plus the whole minutes of the session so far, without
    committing it: today's total is unchanged, nothing is stored, and the
    dashboard's handler does not pass the live total on to the engine. *)
Theorem live_total_is_reported_not_committed (gym : GymLocation) (env h : Hooks)
    (l : LocationData) (start now : Z) (st : BlockingService.Engine) :
  isAtGym env = true ->
  gymSessionStart env = Some start ->
  nowAtGym calculateDistance gym l = true ->
  let result := gymCheck calculateDistance (Some gym) env l now h in
  result.2 = [GymStatusChange true (totalGymTimeToday env + (now - start) / 60000)] /\
  totalGymTimeToday result.1 = totalGymTimeToday h /\
  currentSessionTime result.1 = (now - start) / 60000 /\
  Dashboard.handleAll result.2 st = (st, []).
Proof.
  intros Hat Hstart Hin. unfold gymCheck. rewrite Hat, Hstart, Hin. simpl.
  repeat split.
Qed.

(** X17.  A departure seen by a callback whose constants say "at the gym
    since [start]" reaches the engine: the dashboard's handler reports
    the new total (the callback's total plus the whole minutes since
    [start]) with [updateGymTime] and stores it, and the engine's gym flag
    then compares that total with the required minutes (60 when these
    are 0). *)
Theorem departure_reaches_the_engine (gym : GymLocation) (env h : Hooks)
    (l : LocationData) (start now : Z) (st : BlockingService.Engine) :
  isAtGym env = true ->
  gymSessionStart env = Some start ->
  nowAtGym calculateDistance gym l = false ->
  let total := totalGymTimeToday env + (now - start) / 60000 in
  let result := gymCheck calculateDistance (Some gym) env l now h in
  let st' := (Dashboard.handleAll result.2 st).1 in
  totalGymTimeToday result.1 = total /\
  (Dashboard.handleAll result.2 st).2 = [("stepTracker_gymTime", total)] /\
  st' = BlockingService.updateGymTime total st /\
  BlockingService.currentGymTime st' = total /\
  BlockingService.isGymGoalAchieved st'
    = (total >=? orZ (BlockingService.requiredMinutes
                        (BlockingService.locationGoal (BlockingService.settings st))) 60).
Proof.
  intros Hat Hstart Hout.
  destruct (gymCheck_departure calculateDistance gym env l start now h Hat Hstart Hout)
    as (Htot & _ & _ & Heff).
  cbv zeta in *. rewrite Heff, Htot. simpl. repeat split.
Qed.

(** X18.  Outside the mode [steps] the dashboard's progress effect
    reports gym minutes only: the engine's step count stays what it was,
    so in the mode [both] the step flag is recomputed from the old step
    count. *)
Theorem dashboard_reports_no_steps_outside_steps_mode
    (mode : BlockingService.TrackingMode) (currentSteps currentGymTime : Z)
    (st : BlockingService.Engine) :
  mode <> BlockingService.steps ->
  let result := Dashboard.syncProgress mode currentSteps currentGymTime st in
  result.1 = BlockingService.updateGymTime currentGymTime st /\
  BlockingService.currentSteps result.1 = BlockingService.currentSteps st /\
  BlockingService.isStepGoalAchieved result.1
    = (BlockingService.currentSteps st
       >=? BlockingService.dailyGoal (BlockingService.settings st)) /\
  result.2 = [("stepTracker_gymTime", currentGymTime)].
Proof.
  intros Hmode. destruct mode; [congruence | |]; repeat split.
Qed.

End DetectorToEngine.

(** ** The navigation interception layer *)

Section Interception.
Import ContentBlocker.

Variable blocks : string -> bool.

Lemma throughGuards_one_layer (layers : nat) (url : option string) :
  throughGuards blocks (S layers) url = throughGuards blocks 1 url.
Proof.
  induction layers as [|n IH]; [reflexivity|].
  change (throughGuards blocks (S (S n)) url)
    with (match url with
          | Some u => if nonEmpty u && blocks u then false
                      else throughGuards blocks (S n) url
          | None => throughGuards blocks (S n) url
          end).
  rewrite IH. simpl. destruct url as [u|]; [|reflexivity].
  now destruct (nonEmpty u && blocks u).
Qed.

Lemma step_guards (op : Op) (b : Blocker) :
  let added := effectiveInits (isInitialized b) [op] in
  historyGuards (step op b) = (historyGuards b + added)%nat /\
  clickGuards (step op b) = (clickGuards b + added)%nat /\
  submitGuards (step op b) = (submitGuards b + added)%nat /\
  isInitialized (step op b) =
    match op with
    | OpInit _ => true
    | OpDestroy => false
    | OpAdded _ _ => isInitialized b
    end.
Proof.
  destruct op as [c| |bl el]; simpl; unfold init.
  - destruct (isInitialized b) eqn:E; simpl; [rewrite E; repeat split; lia|].
    destruct c; simpl; repeat split; lia.
  - repeat split; lia.
  - unfold onAdded. destruct (observer b); simpl; repeat split; lia.
Qed.

Lemma run_guards (ops : list Op) :
  forall b,
    historyGuards (run ops b) = (historyGuards b + effectiveInits (isInitialized b) ops)%nat /\
    clickGuards (run ops b) = (clickGuards b + effectiveInits (isInitialized b) ops)%nat /\
    submitGuards (run ops b) = (submitGuards b + effectiveInits (isInitialized b) ops)%nat.
Proof.
  induction ops as [|op rest IH]; intros b; simpl; [repeat split; lia|].
  destruct (step_guards op b) as (Hh & Hc & Hs & Hi).
  destruct (IH (step op b)) as (Hh' & Hc' & Hs').
  unfold run in *. rewrite Hh', Hc', Hs', Hh, Hc, Hs, Hi.
  destruct op as [c| |bl el]; simpl; destruct (isInitialized b); simpl; repeat split; lia.
Qed.

(** The listeners on anchors are only ever added to. *)
Lemma step_linkGuards (op : Op) (b : Blocker) (a : Anchor) :
  (guardsOn a b <= guardsOn a (step op b))%nat.
Proof.
  destruct op as [c| |bl el]; simpl; unfold init, guardsOn.
  - destruct (isInitialized b); [lia|]. destruct c; simpl; lia.
  - simpl. lia.
  - unfold onAdded. destruct (observer b); simpl; [|lia].
    rewrite List.filter_app, length_app. apply Nat.le_add_r.
Qed.

Lemma run_linkGuards (ops : list Op) (a : Anchor) :
  forall b, (guardsOn a b <= guardsOn a (run ops b))%nat.
Proof.
  induction ops as [|op rest IH]; intros b; simpl; [lia|].
  pose proof (step_linkGuards op b a). pose proof (IH (step op b)).
  unfold run in *. lia.
Qed.

Lemma In_length_pos {A : Type} (x : A) (xs : list A) :
  In x xs -> (0 < length xs)%nat.
Proof. destruct xs; simpl; [contradiction | intros _; apply Nat.lt_0_succ]. Qed.

Lemma onAdded_guards_blocked_link (b : Blocker) (el : AddedElement)
    (a : Anchor) (href : string) :
  observer b = true ->
  In (a, href) (links el) ->
  blocks href = true ->
  (guardsOn a b < guardsOn a (fst (onAdded blocks b el)))%nat.
Proof.
  intros Hobs Hin Hblocked. unfold onAdded, guardsOn. rewrite Hobs. simpl.
  rewrite List.filter_app, length_app.
  assert (Hmem : In (a, href)
            (List.filter (fun guard => Nat.eqb (fst guard) a)
               (List.filter (fun link => blocks (snd link)) (links el)))).
  { apply List.filter_In. split; [|apply Nat.eqb_refl].
    apply List.filter_In. split; [exact Hin | exact Hblocked]. }
  apply Nat.lt_add_pos_r. exact (In_length_pos _ _ Hmem).
Qed.

(** X19.  A navigation through [history.pushState] or [replaceState]
    reaches the browser exactly when no guard is installed, or the URL is
    absent or empty, or the engine does not block it; any number of
    stacked guards decides as a single one does. *)
Theorem stacked_history_guards_decide_as_one (layers : nat) (url : option string) :
  throughGuards blocks layers url =
  match layers, url with
  | O, _ => true
  | S _, None => true
  | S _, Some u => negb (nonEmpty u && blocks u)
  end.
Proof.
  destruct layers as [|n]; [reflexivity|].
  rewrite throughGuards_one_layer. simpl. destruct url as [u|]; [|reflexivity].
  now destruct (nonEmpty u && blocks u).
Qed.

(** X20.  [destroy] removes no guard, and every [init] that finds the
    blocker not initialised adds one of each kind.  So after any sequence
    of [init] and [destroy] calls (and observer callbacks between them)
    with at least one such [init], also when the last call was [destroy],
    a navigation to a blocked URL is still refused, and a click on a
    blocked link or a submit to a blocked action is prevented and shows
    as many "blocked" notifications as there were such [init] calls: the
    listeners on the document stop the click before it reaches the
    anchor. *)
Theorem guards_outlive_destroy (ops : list Op) (a : Anchor) (url : string) :
  let b := run ops fresh in
  let n := effectiveInits false ops in
  (0 < n)%nat ->
  nonEmpty url && blocks url = true ->
  historyGuards b = n /\
  pushState blocks b (Some url) = false /\
  click blocks b a url = (true, n) /\
  submit blocks b url = (true, n).
Proof.
  intros b n Hn Hurl. subst b n.
  destruct (run_guards ops fresh) as (Hh & Hc & Hs). simpl in Hh, Hc, Hs.
  split; [exact Hh|].
  unfold pushState, click, submit, guardedEvent. rewrite Hh, Hc, Hs, Hurl.
  destruct (effectiveInits false ops) as [|k]; [lia|].
  split; [|split; reflexivity].
  rewrite throughGuards_one_layer. simpl. now rewrite Hurl.
Qed.

End Interception.

Section InterceptionAndEngine.
Import JS ContentBlocker.

Variable new_URL : string -> completion string.

Lemma decision_unblocked (st : BlockingService.Engine) (now : Z) (url : string) :
  BlockingService.isBlocked (BlockingService.getBlockingStatus now st) = false ->
  decision new_URL st url = false.
Proof.
  unfold decision, BlockingService.getBlockingStatus, BlockingService.shouldBlockWebsite.
  simpl.
  destruct (BlockingService.enabled (BlockingService.settings st)); simpl; [|reflexivity].
  destruct (BlockingService.goalsAchieved st); simpl; [reflexivity | discriminate].
Qed.

Lemma filter_all {A : Type} (f : A -> bool) (xs : list A) :
  (forall x, f x = true) -> List.filter f xs = xs.
Proof.
  intros H. induction xs as [|x xs IH]; simpl; [reflexivity|]. now rewrite H, IH.
Qed.

Lemma filter_none {A : Type} (f : A -> bool) (xs : list A) :
  (forall x, f x = false) -> List.filter f xs = [].
Proof.
  intros H. induction xs as [|x xs IH]; simpl; [reflexivity|]. now rewrite H.
Qed.

(** X21.  While the engine's status reports [isBlocked = false], the
    guards on the document and on the history interfere with nothing,
    however many are installed: every history navigation goes through, no
    submit is prevented, and the observer removes no iframe and puts a
    listener on no link.  A click is then prevented exactly when its
    anchor carries listeners the observer put on it earlier, with one
    notification for each of them.  Such a listener is added when the
    observer sees a link that the engine blocks at that moment, and no
    later [init], [destroy] or observer callback removes it: a link added
    while the engine blocked stays dead when the goals are reached. *)
Theorem link_guards_outlive_the_block (st : BlockingService.Engine) (now : Z)
    (b : Blocker) (url : option string) (target : string) (el : AddedElement)
    (a : Anchor) (href : string) :
  BlockingService.isBlocked (BlockingService.getBlockingStatus now st) = false ->
  pushState (decision new_URL st) b url = true /\
  submit (decision new_URL st) b target = (false, O) /\
  onAdded (decision new_URL st) b el = (b, iframes el) /\
  click (decision new_URL st) b a href = (negb (Nat.eqb (guardsOn a b) 0), guardsOn a b) /\
  (forall (blocksThen : string -> bool) (hrefThen : string) (ops : list Op),
     observer b = true ->
     In (a, hrefThen) (links el) ->
     blocksThen hrefThen = true ->
     click (decision new_URL st) (run ops (fst (onAdded blocksThen b el))) a href
     = (true, guardsOn a (run ops (fst (onAdded blocksThen b el)))) /\
     (0 < guardsOn a (run ops (fst (onAdded blocksThen b el))))%nat).
Proof.
  intros Hfree.
  assert (Hno : forall u, decision new_URL st u = false)
    by (intros u; now apply decision_unblocked with (now := now)).
  assert (Hclick : forall b', click (decision new_URL st) b' a href
                              = (negb (Nat.eqb (guardsOn a b') 0), guardsOn a b')).
  { intros b'. unfold click, guardedEvent. now rewrite Hno, andb_false_r. }
  split; [|split; [|split; [|split]]].
  - unfold pushState. induction (historyGuards b) as [|n IH]; [reflexivity|].
    simpl. destruct url as [u|]; [|exact IH]. now rewrite Hno, andb_false_r.
  - unfold submit, guardedEvent. now rewrite Hno, andb_false_r.
  - unfold onAdded. destruct b as [i [] h c s k v guards]; simpl; [|reflexivity].
    rewrite (filter_none (fun link : Anchor * string => decision new_URL st (snd link)))
      by (intros link; apply Hno).
    rewrite (filter_all (fun src => negb (nonEmpty src && decision new_URL st src)))
      by (intros src; now rewrite Hno, andb_false_r).
    now rewrite app_nil_r.
  - apply Hclick.
  - intros blocksThen hrefThen ops Hobs Hin Hthen.
    pose proof (onAdded_guards_blocked_link blocksThen b el a hrefThen Hobs Hin Hthen) as Hadd.
    pose proof (run_linkGuards ops a (fst (onAdded blocksThen b el))) as Hkeep.
    rewrite Hclick.
    destruct (guardsOn a (run ops (fst (onAdded blocksThen b el)))) as [|k] eqn:E; [lia|].
    split; [reflexivity | lia].
Qed.

End InterceptionAndEngine.

(** ** Favourite gyms *)

Section FavoriteGyms.
Import JS Favorites.

Lemma NoDup_map_filter {A B : Type} (f : A -> B) (p : A -> bool) (xs : list A) :
  List.NoDup (map f xs) -> List.NoDup (map f (List.filter p xs)).
Proof.
  induction xs as [|x xs IH]; simpl; intros H; [constructor|].
  apply List.NoDup_cons_iff in H as [Hx Hxs].
  destruct (p x); simpl; [|auto].
  constructor; [|auto]. intros Hin. apply Hx.
  apply in_map_iff in Hin as (y & Hy & Hin). apply filter_In in Hin as [Hin _].
  apply in_map_iff. eauto.
Qed.

Lemma NoDup_snoc {A : Type} (xs : list A) (x : A) :
  List.NoDup xs -> ~ In x xs -> List.NoDup (xs ++ [x]).
Proof.
  intros H Hx. apply List.NoDup_app; [exact H | repeat constructor; intros [] |].
  intros a Ha [<-|[]]. contradiction.
Qed.

Lemma not_sameGym (newFavorite : FavoriteGym) (favs : list FavoriteGym) :
  some (sameGym newFavorite) favs = false ->
  ~ In (id newFavorite) (map id favs) /\ ~ In (name newFavorite) (map name favs).
Proof.
  intros H. split; intros Hin; apply in_map_iff in Hin as (fav & Heq & Hin);
    (assert (some (sameGym newFavorite) favs = true); [|congruence]);
    apply existsb_exists; exists fav; (split; [exact Hin|]);
    unfold sameGym; rewrite Heq, String.eqb_refl; [reflexivity | apply orb_true_r].
Qed.

Lemma filter_all_in {A : Type} (f : A -> bool) (xs : list A) :
  (forall x, In x xs -> f x = true) -> List.filter f xs = xs.
Proof.
  induction xs as [|x xs IH]; simpl; intros H; [reflexivity|].
  rewrite (H x) by auto. f_equal. apply IH. auto.
Qed.

Lemma step_keeps_favorites_sound (op : Op) (favs : list FavoriteGym) :
  (length favs <= 15)%nat -> distinctGyms favs ->
  (length (step op favs) <= 15)%nat /\ distinctGyms (step op favs).
Proof.
  intros Hlen [Hid Hname]. destruct op as [place now generated|gymId]; simpl.
  - unfold addToFavorites. destruct (location place) as [[la lo]|]; [|now split].
    destruct (some _ favs) eqn:Hdup; simpl; [now split|].
    destruct (Nat.ltb_spec (length favs) 15) as [Hlt|Hge]; [|now split].
    apply not_sameGym in Hdup as [Hnid Hnname]. simpl in Hnid, Hnname.
    split; [rewrite length_app; simpl; lia|].
    split; rewrite map_app; simpl; now apply NoDup_snoc.
  - unfold removeFromFavorites. split.
    + pose proof (filter_length_le (fun fav => negb (String.eqb (id fav) gymId)) favs).
      lia.
    + split; now apply NoDup_map_filter.
Qed.

(** X22.  The favourites stay within their bounds: starting from a list
    of at most 15 favourites in which no two share an identifier or a
    name, any sequence of additions and removals leaves a list of at most
    15 favourites with the same uniqueness. *)
Theorem favorites_stay_bounded_and_distinct (ops : list Op) (favs : list FavoriteGym) :
  (length favs <= 15)%nat ->
  distinctGyms favs ->
  (length (run ops favs) <= 15)%nat /\ distinctGyms (run ops favs).
Proof.
  revert favs. induction ops as [|op rest IH]; intros favs Hlen Hd; simpl; [now split|].
  destruct (step_keeps_favorites_sound op favs Hlen Hd) as [Hlen1 Hd1].
  now apply IH.
Qed.

(** X23.  Removing a favourite removes every entry with that identifier
    and keeps the others in their order.  A place without geometry, a
    place whose identifier or name is already a favourite, and any place
    once there are 15 favourites, are not added.  Adding a place and then
    removing its identifier gives back the list, provided no favourite
    carried that identifier before. *)
Theorem favorites_add_and_remove (place : Place) (now : Z) (generated : string)
    (gymId : string) (favs : list FavoriteGym) :
  let newId := orUndefStr (place_id place) generated in
  ~ In gymId (map id (removeFromFavorites gymId favs)) /\
  (forall fav, In fav (removeFromFavorites gymId favs) <-> In fav favs /\ id fav <> gymId) /\
  (location place = None \/ (15 <= length favs)%nat \/
   In newId (map id favs) \/ In (place_name place) (map name favs) ->
   addToFavorites place now generated favs = favs) /\
  (~ In newId (map id favs) ->
   removeFromFavorites newId (addToFavorites place now generated favs) = favs).
Proof.
  intros newId. subst newId. split; [|split; [|split]].
  - intros Hin. apply in_map_iff in Hin as (fav & Heq & Hin).
    apply filter_In in Hin as [_ Hne]. rewrite Heq, String.eqb_refl in Hne. discriminate.
  - intros fav. unfold removeFromFavorites.
    rewrite filter_In, negb_true_iff, String.eqb_neq. reflexivity.
  - intros H. unfold addToFavorites. destruct (location place) as [[la lo]|]; [|reflexivity].
    destruct H as [H|[H|H]]; [discriminate | |].
    + destruct (Nat.ltb_spec (length favs) 15); [lia|]. now rewrite andb_false_r.
    + destruct (some _ favs) eqn:Hdup; [reflexivity|].
      apply not_sameGym in Hdup. simpl in Hdup. tauto.
  - intros Hnew.
    assert (Hsame : removeFromFavorites (orUndefStr (place_id place) generated) favs = favs).
    { unfold removeFromFavorites. apply filter_all_in. intros fav Hin.
      apply negb_true_iff, String.eqb_neq. intros Heq. apply Hnew.
      apply in_map_iff. eauto. }
    unfold addToFavorites. destruct (location place) as [[la lo]|]; [|exact Hsame].
    destruct (negb _ && _); [|exact Hsame].
    unfold removeFromFavorites in *. rewrite List.filter_app, Hsame. simpl.
    rewrite String.eqb_refl. simpl. apply app_nil_r.
Qed.

End FavoriteGyms.

(** ** What [updateSettings] shares with its caller *)

Section CallerObjects.
Import ObjectModel ObjectUpdate.

Lemma propOf_setProp_other (h : heap) (o o' : loc) (k k' : string) (v : jsval) :
  (o <> o' \/ k <> k') ->
  propOf (setProp h o k v) o' k' = propOf h o' k'.
Proof.
  intros Hne. unfold propOf, setProp.
  destruct (h !! o) as [[props|elems]|] eqn:E; try reflexivity.
  destruct (decide (o = o')) as [<-|Hoo].
  - rewrite lookup_insert_eq, E. destruct Hne as [?|Hk]; [congruence|].
    now rewrite lookup_insert_ne.
  - now rewrite lookup_insert_ne.
Qed.

Lemma propOf_setProp_same (h : heap) (o : loc) (k : string) (v : jsval)
    (props : gmap string jsval) :
  h !! o = Some (Obj props) ->
  propOf (setProp h o k v) o k = Some v.
Proof.
  intros E. unfold propOf, setProp. rewrite E, lookup_insert_eq. apply lookup_insert_eq.
Qed.

Lemma setProp_keeps_objects (h : heap) (o o' : loc) (k : string) (v : jsval)
    (props : gmap string jsval) :
  h !! o' = Some (Obj props) ->
  exists props', setProp h o k v !! o' = Some (Obj props').
Proof.
  intros E. unfold setProp. destruct (h !! o) as [[q|elems]|] eqn:Eo; eauto.
  destruct (decide (o = o')) as [<-|Hne].
  - rewrite lookup_insert_eq. eauto.
  - rewrite lookup_insert_ne; eauto.
Qed.

Lemma is_object_setProp (h : heap) (o o' : loc) (k : string) (v : jsval) :
  (exists props, h !! o' = Some (Obj props)) ->
  exists props, setProp h o k v !! o' = Some (Obj props).
Proof. intros [props E]. eapply setProp_keeps_objects; eauto. Qed.

(** X24.  [updateSettings] keeps the caller's objects.  When the argument
    carries a [locationGoal] object, that very object becomes the
    engine's [locationGoal]: its [radiusMeters] is overwritten with 150
    in the caller's hands, and whatever the caller assigns in it
    afterwards is what the engine reads. *)
Theorem updateSettings_keeps_the_callers_goal (h : heap) (l p g l' : loc) (h' : heap)
    (old new goal : gmap string jsval) :
  h !! l = Some (Obj old) ->
  h !! p = Some (Obj new) ->
  new !! "locationGoal" = Some (VRef g) ->
  h !! g = Some (Obj goal) ->
  g <> p ->
  updateSettings h l p = Some (l', h') ->
  propOf h' l' "locationGoal" = Some (VRef g) /\
  propOf h' g "radiusMeters" = Some (VNum 150%float) /\
  (forall k v, readNested (setProp h' g k v) l' "locationGoal" k = Some v).
Proof.
  intros Hl Hp Hgoal Hg Hgp. unfold updateSettings.
  set (h1 := match propOf h p "strictMode" with
             | Some (VBool true) => setProp h p "strictMode" (VBool false)
             | _ => h
             end).
  set (h2 := match propOf h1 p "strictMode" with
             | Some (VBool false) => setProp h1 p "strictModeActivatedAt" VUndefined
             | _ => h1
             end).
  assert (Hkey0 : propOf h p "locationGoal" = Some (VRef g))
    by (unfold propOf; now rewrite Hp).
  assert (Hkey1 : propOf h1 p "locationGoal" = Some (VRef g)).
  { subst h1. destruct (propOf h p "strictMode") as [[|[]| | | |]|]; try exact Hkey0.
    rewrite propOf_setProp_other; [exact Hkey0 | right; discriminate]. }
  assert (Hkey2 : propOf h2 p "locationGoal" = Some (VRef g)).
  { subst h2. destruct (propOf h1 p "strictMode") as [[|[]| | | |]|]; try exact Hkey1.
    rewrite propOf_setProp_other; [exact Hkey1 | right; discriminate]. }
  assert (Hobj1 : forall o, (exists q, h !! o = Some (Obj q)) ->
                            exists q, h1 !! o = Some (Obj q)).
  { intros o Ho. subst h1.
    destruct (propOf h p "strictMode") as [[|[]| | | |]|]; try exact Ho.
    now apply is_object_setProp. }
  assert (Hobj2 : forall o, (exists q, h !! o = Some (Obj q)) ->
                            exists q, h2 !! o = Some (Obj q)).
  { intros o Ho. apply Hobj1 in Ho. subst h2.
    destruct (propOf h1 p "strictMode") as [[|[]| | | |]|]; try exact Ho.
    now apply is_object_setProp. }
  rewrite Hkey2.
  set (h3 := setProp h2 g "radiusMeters" (VNum 150%float)).
  destruct (Hobj2 g (ex_intro _ goal Hg)) as [goal2 Hg2].
  assert (Hrad : propOf h3 g "radiusMeters" = Some (VNum 150%float))
    by (eapply propOf_setProp_same; exact Hg2).
  assert (Hkey3 : propOf h3 p "locationGoal" = Some (VRef g)).
  { subst h3. rewrite propOf_setProp_other; [exact Hkey2 | left; exact Hgp]. }
  destruct (is_object_setProp h2 g l "radiusMeters" (VNum 150%float)
              (Hobj2 l (ex_intro _ old Hl))) as [old3 Hl3].
  destruct (is_object_setProp h2 g p "radiusMeters" (VNum 150%float)
              (Hobj2 p (ex_intro _ new Hp))) as [new3 Hp3].
  destruct (is_object_setProp h2 g g "radiusMeters" (VNum 150%float)
              (ex_intro _ goal2 Hg2)) as [goal3 Hg3].
  fold h3 in Hl3, Hp3, Hg3. rewrite Hl3, Hp3.
  intros [= <- <-].
  destruct (alloc_fresh h3 (Obj (new3 ∪ old3))) as [Hfresh _].
  simpl in Hfresh. set (fresh_loc := fresh (dom h3)) in *.
  assert (Hgl : g <> fresh_loc) by congruence.
  assert (Hnew : propOf (<[fresh_loc := Obj (new3 ∪ old3)]> h3) fresh_loc "locationGoal"
                 = Some (VRef g)).
  { unfold propOf. rewrite lookup_insert_eq. apply lookup_union_Some_l.
    unfold propOf in Hkey3. now rewrite Hp3 in Hkey3. }
  split; [exact Hnew|]. split.
  - unfold propOf. rewrite lookup_insert_ne by congruence.
    unfold propOf in Hrad. exact Hrad.
  - intros k v. unfold readNested.
    rewrite propOf_setProp_other by (left; exact Hgl). rewrite Hnew.
    eapply propOf_setProp_same. rewrite lookup_insert_ne by congruence. exact Hg3.
Qed.

End CallerObjects.

Section StaleInside.
Import JS LocationTracker Dashboard.

Variable calculateDistance : float -> float -> float -> float -> float.

Lemma last_cons {A : Type} (x d : A) (xs : list A) : List.last (x :: xs) d = List.last xs x.
Proof.
  revert x d. induction xs as [|y ys IH]; intros x d; [reflexivity|].
  change (List.last (x :: y :: ys) d) with (List.last (y :: ys) d).
  now rewrite !IH.
Qed.

Lemma deliver_outside_stale (gym : GymLocation) (env : Hooks) (start : Z)
    (l : LocationData) (now : Z) (t : Tracker) :
  watch t = Some env ->
  isAtGym env = true ->
  gymSessionStart env = Some start ->
  nowAtGym calculateDistance gym l = false ->
  let total := totalGymTimeToday env + (now - start) / 60000 in
  watch (deliver calculateDistance (Some gym) l now t).1 = Some env /\
  totalGymTimeToday (hooks (deliver calculateDistance (Some gym) l now t).1) = total /\
  departures (deliver calculateDistance (Some gym) l now t).2 = [total].
Proof.
  intros Hw Hat Hstart Hout. unfold deliver, successCallback. rewrite Hw.
  unfold gymCheck. rewrite Hat, Hstart, Hout. simpl. repeat split.
Qed.

Lemma departures_app (xs ys : list Effect) :
  departures (xs ++ ys) = (departures xs ++ departures ys)%list.
Proof. apply flat_map_app. Qed.

(** X25.  A callback whose constants say "at the gym since [start]" takes
    every fix outside the radius for a departure: each such fix emits a
    departure event and sets today's total to the callback's total plus
    the whole minutes from [start] to that fix, so the total keeps
    growing with every fix received after the gym was left. *)
Theorem stale_session_recounts_every_outside_fix (gym : GymLocation) (env : Hooks)
    (start : Z) (fixes : list (LocationData * Z)) (t : Tracker) :
  watch t = Some env ->
  isAtGym env = true ->
  gymSessionStart env = Some start ->
  List.Forall (fun f => nowAtGym calculateDistance gym f.1 = false) fixes ->
  let total (f : LocationData * Z) := totalGymTimeToday env + (f.2 - start) / 60000 in
  let run := deliverAll calculateDistance (Some gym) fixes t in
  departures run.2 = map total fixes /\
  totalGymTimeToday (hooks run.1) = List.last (map total fixes) (totalGymTimeToday (hooks t)).
Proof.
  intros Hw Hat Hstart Hout total run. subst run. revert t Hw.
  induction Hout as [|[l now] rest Hl Hrest IH]; intros t Hw; simpl; [split; reflexivity|].
  destruct (deliver_outside_stale gym env start l now t Hw Hat Hstart Hl)
    as (Hw1 & Htot1 & Hdep1).
  destruct (deliver calculateDistance (Some gym) l now t) as [t1 e1]. simpl in *.
  destruct (IH t1 Hw1) as [Hdep Htot].
  destruct (deliverAll calculateDistance (Some gym) rest t1) as [t2 e2]. simpl in *.
  rewrite departures_app, Hdep1, Hdep. split; [reflexivity|].
  rewrite Htot, Htot1. symmetry. apply last_cons.
Qed.

End StaleInside.

(** ** The further properties on concrete inputs *)

Section FurtherExamples.
Import JS Examples MoreExamples.

Lemma unblocked_status_blocks_nothing_witness :
  BlockingService.shouldBlockWebsite exampleURL firstStart "https://facebook.com"
    = Return false.
Proof.
  apply (unblocked_status_blocks_nothing exampleURL firstStart 1700000000000).
  reflexivity.
Defined.

Lemma status_after_progress_update_witness :
  BlockingService.isBlocked
    (BlockingService.getBlockingStatus 1700000000000
       (BlockingService.updateStepCount 5000 blockingOn)) = true.
Proof.
  destruct (status_after_progress_update 1700000000000 blockingOn
              (BlockingService.updateStepCount 5000 blockingOn))
    as (_ & _ & Hblocked & _).
  - left. exists 5000. reflexivity.
  - apply Hblocked. split; [reflexivity|].
    unfold BlockingService.goalsMetOr60, BlockingService.stepGoalMet. simpl. lia.
Defined.

Lemma goal_change_waits_for_progress_report_witness :
  BlockingService.isStepGoalAchieved goalLowered = false /\
  BlockingService.isStepGoalAchieved (BlockingService.updateStepCount 5000 goalLowered)
    = true.
Proof.
  destruct (goal_change_waits_for_progress_report 5000 3000 (onlyDailyGoal 3000) blockingOn)
    as (_ & _ & Hstale & _ & Hfresh); [reflexivity|].
  split; [exact Hstale | exact Hfresh].
Defined.

Lemma reload_of_saved_settings_witness :
  BlockingService.dailyGoal
    (BlockingService.loadSettings (BlockingService.saveSettings goalLowered)) = 3000 /\
  BlockingService.radiusMeters
    (BlockingService.locationGoal
       (BlockingService.loadSettings (BlockingService.saveSettings goalLowered)))
    = 150%float.
Proof.
  destruct (reload_of_saved_settings goalLowered)
    as (_ & _ & Hgoal & _ & _ & _ & _ & _ & _ & _ & _ & _ & Hrad & _);
    try reflexivity.
  split; [exact Hgoal | exact Hrad].
Defined.

Lemma removed_listener_not_notified_witness :
  ~ In 2%nat
      (map fst (Subscribers.steps laterUpdates
                  (Subscribers.removeListener 2%nat twoListeners)).2) /\
  In 1%nat
      (map fst (Subscribers.steps laterUpdates
                  (Subscribers.removeListener 2%nat twoListeners)).2).
Proof.
  split.
  - apply (removed_listener_not_notified 2%nat twoListeners laterUpdates).
    repeat constructor; discriminate.
  - vm_compute. tauto.
Defined.

Lemma destroy_silences_the_service_witness :
  (Subscribers.steps updatesWithoutSubscription (Subscribers.destroy twoListeners)).2 = [] /\
  (Subscribers.steps updatesWithoutSubscription twoListeners).2 <> [].
Proof.
  split.
  - apply (destroy_silences_the_service twoListeners updatesWithoutSubscription).
    repeat constructor; discriminate.
  - vm_compute. discriminate.
Defined.

Lemma strict_mode_guard_compares_with_false_witness :
  BlockingServiceV1.updateSettings switchOff strictEngine = strictEngine /\
  BlockingServiceV1.enabled
    (BlockingServiceV1.settings
       (BlockingServiceV1.updateSettings enabledUndefined strictEngine)) = None /\
  BlockingServiceV1.shouldBlockWebsite exampleURL
    (BlockingServiceV1.updateSettings enabledUndefined strictEngine)
    "https://facebook.com" = Return false /\
  BlockingServiceV1.shouldBlockWebsite exampleURL strictEngine "https://facebook.com"
  = Return true /\
  BlockingServiceV1.enabled
    (BlockingServiceV1.settings
       (BlockingServiceV1.updateSettings switchOff
          (BlockingServiceV1.updateSettings strictOff strictEngine))) = Some false.
Proof.
  destruct (strict_mode_guard_compares_with_false exampleURL strictOff strictEngine eq_refl)
    as (_ & _ & _ & _ & Htwo).
  destruct (strict_mode_guard_compares_with_false exampleURL switchOff strictEngine eq_refl)
    as (Hdrop & _).
  destruct (strict_mode_guard_compares_with_false exampleURL enabledUndefined strictEngine
              eq_refl) as (_ & _ & Hone & Hfree & _).
  split; [apply Hdrop; reflexivity|].
  split; [exact (Hone eq_refl)|].
  split; [exact (Hfree eq_refl "https://facebook.com")|].
  split; [reflexivity|].
  apply Htwo; [left; reflexivity | discriminate | reflexivity].
Defined.

Lemma later_engine_agrees_in_steps_mode_witness :
  BlockingServiceV1.shouldBlockWebsite exampleURL (BlockingServiceV1.ofLater blockingOn)
    "https://facebook.com" = Return true.
Proof.
  destruct (later_engine_agrees_in_steps_mode exampleURL blockingOn
              "https://facebook.com" 0 1700000000000 eq_refl) as (Hsame & _).
  rewrite Hsame. reflexivity.
Defined.

Lemma history_is_last_50_fixes_witness :
  LocationTracker.locationHistory
    (LocationTracker.hooks
       (LocationTracker.deliverAll LocationTracker.flatDistance (Some originGym)
          [(fixInside, 1700000000000); (fixOutside, 1700002520000)]
          (LocationTracker.mount true None)).1)
  = [fixInside; fixOutside].
Proof.
  destruct (history_is_last_50_fixes LocationTracker.flatDistance (Some originGym)
              (LocationTracker.initialHooks true)
              [(fixInside, 1700000000000); (fixOutside, 1700002520000)]
              (LocationTracker.mount true None)) as [Hhist _].
  - reflexivity.
  - simpl. lia.
  - rewrite Hhist. reflexivity.
Defined.

Lemma live_total_is_reported_not_committed_witness :
  (LocationTracker.gymCheck LocationTracker.flatDistance (Some originGym) insideSince
     fixInside 1700001200000 insideSince).2
  = [LocationTracker.GymStatusChange true 37].
Proof.
  destruct (live_total_is_reported_not_committed LocationTracker.flatDistance originGym
              insideSince insideSince fixInside 1700000000000 1700001200000 firstStart
              eq_refl eq_refl eq_refl)
    as (Heff & _).
  rewrite Heff. reflexivity.
Defined.

Lemma departure_reaches_the_engine_witness :
  BlockingService.currentGymTime
    (Dashboard.handleAll
       (LocationTracker.gymCheck LocationTracker.flatDistance (Some originGym) insideSince
          fixOutside 1700002520000 insideSince).2 firstStart).1 = 59.
Proof.
  destruct (departure_reaches_the_engine LocationTracker.flatDistance originGym
              insideSince insideSince fixOutside 1700000000000 1700002520000 firstStart
              eq_refl eq_refl eq_refl)
    as (_ & _ & _ & Htime & _).
  rewrite Htime. reflexivity.
Defined.

Lemma dashboard_reports_no_steps_outside_steps_mode_witness :
  BlockingService.currentSteps
    (Dashboard.syncProgress BlockingService.both 12000 30 blockingOn).1 = 0.
Proof.
  destruct (dashboard_reports_no_steps_outside_steps_mode BlockingService.both 12000 30
              blockingOn) as (_ & Hsteps & _); [discriminate|].
  rewrite Hsteps. reflexivity.
Defined.

End FurtherExamples.

Section FurtherExamples2.
Import JS Examples MoreExamples.

Lemma guards_outlive_destroy_witness :
  ContentBlocker.isInitialized
    (ContentBlocker.run
       [ContentBlocker.OpInit false; ContentBlocker.OpDestroy;
        ContentBlocker.OpInit false; ContentBlocker.OpDestroy]
       ContentBlocker.fresh) = false /\
  ContentBlocker.click (ContentBlocker.decision exampleURL blockingOn)
    (ContentBlocker.run
       [ContentBlocker.OpInit false; ContentBlocker.OpDestroy;
        ContentBlocker.OpInit false; ContentBlocker.OpDestroy]
       ContentBlocker.fresh)
    7%nat "https://facebook.com" = (true, 2%nat).
Proof.
  split; [reflexivity|].
  destruct (guards_outlive_destroy (ContentBlocker.decision exampleURL blockingOn)
              [ContentBlocker.OpInit false; ContentBlocker.OpDestroy;
               ContentBlocker.OpInit false; ContentBlocker.OpDestroy]
              7%nat "https://facebook.com") as (_ & _ & Hclick & _).
  - simpl. lia.
  - reflexivity.
  - exact Hclick.
Defined.

(** Two links come into the document while the engine blocks; the goal is
    then reached and the blocker destroyed.  The link to the listed site
    is still dead and shows its notification; the other link, and the
    history, are free. *)
Lemma link_guards_outlive_the_block_witness :
  BlockingService.isBlocked
    (BlockingService.getBlockingStatus 1700000000000 blockingOn) = true /\
  BlockingService.isBlocked
    (BlockingService.getBlockingStatus 1700000000000 goalReached) = false /\
  ContentBlocker.click (ContentBlocker.decision exampleURL goalReached)
    (ContentBlocker.run [ContentBlocker.OpDestroy]
       (ContentBlocker.onAdded (ContentBlocker.decision exampleURL blockingOn)
          watching addedLinks).1)
    7%nat "https://facebook.com/page" = (true, 1%nat) /\
  ContentBlocker.click (ContentBlocker.decision exampleURL goalReached)
    (ContentBlocker.run [ContentBlocker.OpDestroy]
       (ContentBlocker.onAdded (ContentBlocker.decision exampleURL blockingOn)
          watching addedLinks).1)
    8%nat "https://example.org/" = (false, 0%nat) /\
  ContentBlocker.pushState (ContentBlocker.decision exampleURL goalReached)
    (ContentBlocker.run [ContentBlocker.OpDestroy]
       (ContentBlocker.onAdded (ContentBlocker.decision exampleURL blockingOn)
          watching addedLinks).1)
    (Some "https://facebook.com/page") = true.
Proof.
  destruct (link_guards_outlive_the_block exampleURL goalReached 1700000000000
              watching (Some "https://facebook.com/page") "https://facebook.com/page"
              addedLinks 7%nat "https://facebook.com/page" eq_refl)
    as (_ & _ & _ & _ & Hkept).
  destruct (Hkept (ContentBlocker.decision exampleURL blockingOn)
              "https://facebook.com/page" [ContentBlocker.OpDestroy]
              eq_refl (or_introl eq_refl) eq_refl) as [Hdead _].
  destruct (link_guards_outlive_the_block exampleURL goalReached 1700000000000
              (ContentBlocker.run [ContentBlocker.OpDestroy]
                 (ContentBlocker.onAdded (ContentBlocker.decision exampleURL blockingOn)
                    watching addedLinks).1)
              (Some "https://facebook.com/page") "https://example.org/"
              addedLinks 8%nat "https://example.org/" eq_refl)
    as (Hpush & _ & _ & Hfree & _).
  split; [reflexivity|]. split; [reflexivity|].
  split; [exact Hdead|]. split; [exact Hfree|]. exact Hpush.
Defined.

Lemma favorites_stay_bounded_and_distinct_witness :
  (length (Favorites.run
             [Favorites.OpAdd townGymPlace 1700000000000 "1700000000000-0.5";
              Favorites.OpAdd townGymPlace 1700000001000 "1700000001000-0.25";
              Favorites.OpAdd unlocatedPlace 1700000002000 "1700000002000-0.75"]
             []) <= 15)%nat.
Proof.
  destruct (favorites_stay_bounded_and_distinct
              [Favorites.OpAdd townGymPlace 1700000000000 "1700000000000-0.5";
               Favorites.OpAdd townGymPlace 1700000001000 "1700000001000-0.25";
               Favorites.OpAdd unlocatedPlace 1700000002000 "1700000002000-0.75"]
              []) as [Hlen _].
  - simpl. lia.
  - split; constructor.
  - exact Hlen.
Defined.

Lemma updateSettings_keeps_the_callers_goal_witness :
  exists l' h',
    ObjectUpdate.updateSettings callerPartial.2 engineObject callerPartial.1 = Some (l', h') /\
    ObjectModel.propOf h' callerGoal.1 "radiusMeters" = Some (ObjectModel.VNum 150%float) /\
    ObjectModel.readNested
      (ObjectModel.setProp h' callerGoal.1 "requiredMinutes" (ObjectModel.VInt 0))
      l' "locationGoal" "requiredMinutes" = Some (ObjectModel.VInt 0).
Proof.
  destruct (ObjectUpdate.updateSettings callerPartial.2 engineObject callerPartial.1)
    as [[l' h']|] eqn:Hupd; [|vm_compute in Hupd; discriminate].
  exists l', h'. split; [reflexivity|].
  destruct (callerPartial.2 !! engineObject) as [[old|]|] eqn:Hold;
    try (vm_compute in Hold; discriminate).
  destruct (callerPartial.2 !! callerPartial.1) as [[new|]|] eqn:Hnew;
    try (vm_compute in Hnew; discriminate).
  destruct (callerPartial.2 !! callerGoal.1) as [[goal|]|] eqn:Hgoal;
    try (vm_compute in Hgoal; discriminate).
  destruct (updateSettings_keeps_the_callers_goal callerPartial.2 engineObject
              callerPartial.1 callerGoal.1 l' h' old new goal Hold Hnew)
    as (_ & Hrad & Hlater).
  - vm_compute in Hnew. injection Hnew as <-. vm_compute. reflexivity.
  - exact Hgoal.
  - vm_compute. discriminate.
  - exact Hupd.
  - split; [exact Hrad | apply Hlater].
Defined.

Lemma stale_session_recounts_every_outside_fix_witness :
  LocationTracker.totalGymTimeToday
    (LocationTracker.hooks
       (LocationTracker.deliverAll LocationTracker.flatDistance (Some originGym)
          [(fixOutside, 1700002520000); (fixFarther, 1700006120000)] restarted).1)
  = 17 + 102.
Proof.
  destruct (stale_session_recounts_every_outside_fix LocationTracker.flatDistance
              originGym insideSince 1700000000000
              [(fixOutside, 1700002520000); (fixFarther, 1700006120000)] restarted
              eq_refl eq_refl eq_refl) as [_ Htotal].
  - repeat constructor.
  - rewrite Htotal. reflexivity.
Defined.

End FurtherExamples2.
